(** * Zephyr Scale MCP adapter: request executor and endpoint tools

    A shallow embedding of [src/app.py].  The module is a protocol
    adapter: every tool builds one HTTP request, hands it to
    [make_zephyr_request] and reshapes the normalised outcome into a
    text value.

    Conventions of the embedding.
    - Python [str] is [string]; a character is an 8-bit code point.
    - Python [int] is [Z].
    - JSON values and the Python values built from them are [json];
      a [dict] is an association list in insertion order.
    - The network, the process environment and the builtins [json.loads]
      and [repr] are not part of the repository: they are the variables of
      [Section Adapter].
    - A coroutine is a computation in the monad [M], which threads the
      observable world (transport invocations and log lines) and may end
      in a raised exception. *)

From Stdlib Require Import ZArith List String Ascii Bool Lia.
From Stdlib Require Import DecimalString.
Import ListNotations.
Local Open Scope string_scope.
Local Open Scope Z_scope.

(** ** Values *)

#[warnings="-register-all"]
Inductive json : Type :=
| JNull
| JBool (b : bool)
| JInt (n : Z)
| JStr (s : string)
| JList (l : list json)
| JObj (d : list (string * json)).

Definition dict := list (string * json).

(** [d.get(k)] / [k in d] on a dict. *)
Fixpoint dict_get (d : dict) (k : string) : option json :=
  match d with
  | [] => None
  | (k', v) :: d' => if String.eqb k' k then Some v else dict_get d' k
  end.

(** [d[k] = v]: an existing key keeps its position, a new key goes last. *)
Fixpoint dict_set (d : dict) (k : string) (v : json) : dict :=
  match d with
  | [] => [(k, v)]
  | (k', v') :: d' =>
      if String.eqb k' k then (k', v) :: d' else (k', v') :: dict_set d' k v
  end.

(** A dict display [{k1: v1, ..., kn: vn}], evaluated left to right. *)
Definition dict_of (items : list (string * json)) : dict :=
  fold_left (fun d kv => dict_set d (fst kv) (snd kv)) items [].

Definition dict_mem (d : dict) (k : string) : bool :=
  match dict_get d k with Some _ => true | None => false end.

(** Python truthiness ([if x:], [not x]). *)
Definition truthy (v : json) : bool :=
  match v with
  | JNull => false
  | JBool b => b
  | JInt n => negb (n =? 0)
  | JStr s => negb (String.eqb s EmptyString)
  | JList l => match l with [] => false | _ => true end
  | JObj d => match d with [] => false | _ => true end
  end.

(** Typed tool arguments as runtime values. *)
Class PyValue (A : Type) := to_json : A -> json.

#[global] Instance PyValue_json : PyValue json := fun v => v.
#[global] Instance PyValue_Z : PyValue Z := JInt.
#[global] Instance PyValue_bool : PyValue bool := JBool.
#[global] Instance PyValue_string : PyValue string := JStr.
#[global] Instance PyValue_list {A} `{PyValue A} : PyValue (list A) :=
  fun l => JList (map to_json l).
#[global] Instance PyValue_option {A} `{PyValue A} : PyValue (option A) :=
  fun o => match o with Some x => to_json x | None => JNull end.

(** ** Strings *)

(** [str(n)] for an int. *)
Definition str_of_Z (n : Z) : string := NilZero.string_of_int (Z.to_int n).

(** [s.upper()].  On 7-bit characters this is Python's mapping; the
    characters 128..255 are left alone, and none of them upper-cases to a
    letter of GET, POST, PUT or DELETE in Python either. *)
Definition upper_ascii (c : ascii) : ascii :=
  let n := nat_of_ascii c in
  if ((97 <=? n) && (n <=? 122))%nat then ascii_of_nat (n - 32) else c.

Fixpoint upper (s : string) : string :=
  match s with
  | EmptyString => EmptyString
  | String c s' => String (upper_ascii c) (upper s')
  end.

Fixpoint join (sep : string) (l : list string) : string :=
  match l with
  | [] => EmptyString
  | [x] => x
  | x :: l' => x ++ sep ++ join sep l'
  end.

Fixpoint repeat_str (s : string) (n : nat) : string :=
  match n with O => EmptyString | S n' => s ++ repeat_str s n' end.

(** ** [json.dumps(v, indent=2)] *)

Definition hex_digit (n : nat) : ascii :=
  if (n <? 10)%nat then ascii_of_nat (48 + n) else ascii_of_nat (87 + n).

Definition char (n : nat) : string := String (ascii_of_nat n) EmptyString.

Definition dquote : string := char 34.
Definition backslash : string := char 92.

(** One character inside a JSON string literal, [ensure_ascii=True]. *)
Definition escape_char (c : ascii) : string :=
  let n := nat_of_ascii c in
  if (n =? 34)%nat then backslash ++ dquote
  else if (n =? 92)%nat then backslash ++ backslash
  else if (n =? 10)%nat then backslash ++ "n"
  else if (n =? 13)%nat then backslash ++ "r"
  else if (n =? 9)%nat then backslash ++ "t"
  else if (n =? 8)%nat then backslash ++ "b"
  else if (n =? 12)%nat then backslash ++ "f"
  else if ((32 <=? n) && (n <=? 126))%nat then String c EmptyString
  else backslash ++ "u00"
         ++ String (hex_digit (n / 16)) (String (hex_digit (n mod 16)) EmptyString).

Fixpoint escape_body (s : string) : string :=
  match s with
  | EmptyString => EmptyString
  | String c s' => escape_char c ++ escape_body s'
  end.

Definition encode_str (s : string) : string := dquote ++ escape_body s ++ dquote.

Definition newline_indent (level : nat) : string :=
  String (ascii_of_nat 10) (repeat_str "  " level).

Fixpoint dumps_at (level : nat) (v : json) : string :=
  match v with
  | JNull => "null"
  | JBool true => "true"
  | JBool false => "false"
  | JInt n => str_of_Z n
  | JStr s => encode_str s
  | JList [] => "[]"
  | JList l =>
      "[" ++ newline_indent (S level)
          ++ join ("," ++ newline_indent (S level)) (map (dumps_at (S level)) l)
          ++ newline_indent level ++ "]"
  | JObj [] => "{}"
  | JObj d =>
      "{" ++ newline_indent (S level)
          ++ join ("," ++ newline_indent (S level))
               (map (fun kv => match kv with
                               | (k, x) => encode_str k ++ ": " ++ dumps_at (S level) x
                               end) d)
          ++ newline_indent level ++ "}"
  end.

(** [json.dumps(v, indent=2)]. *)
Definition json_dumps_indent2 (v : json) : string := dumps_at 0 v.

(** ** HTTP transport data *)

Inductive verb : Type := GET | POST | PUT | DELETE.

(** What one [client.get/post/put/delete] call hands to the transport. *)
Record request : Type := mk_request {
  req_verb : verb;
  req_url : string;
  req_headers : list (string * string);
  req_json : option json;
  req_params : option json;
  req_timeout : Z
}.

(** [response.content] is the raw body; [response.text] is its decoding,
    which the embedding identifies with the body. *)
Record response : Type := mk_response {
  status_code : Z;
  content : string
}.

Definition text (r : response) : string := content r.

(** ** Exceptions *)

Inductive exn_class : Type :=
| ValueError
| JSONDecodeError
| RequestError      (* httpx connection and timeout failures *)
| AttributeError
| TypeError
| KeyError.

Inductive exn : Type :=
| HTTPStatusError (r : response)
| Raised (cls : exn_class) (msg : string).

(** [isinstance(e, json.JSONDecodeError)]. *)
Definition is_JSONDecodeError (e : exn) : bool :=
  match e with Raised JSONDecodeError _ => true | _ => false end.

(** ** Coroutines: world passing with exceptions *)

Record world : Type := mk_world {
  calls : list request;      (* transport invocations, oldest first *)
  logged : list string       (* [logger.error] lines, oldest first *)
}.

Definition M (A : Type) : Type := world -> (exn + A) * world.

Definition ret {A} (a : A) : M A := fun w => (inr a, w).

Definition raise {A} (e : exn) : M A := fun w => (inl e, w).

Definition bind {A B} (m : M A) (k : A -> M B) : M B :=
  fun w => match m w with
           | (inr a, w') => k a w'
           | (inl e, w') => (inl e, w')
           end.

(** [try: body  except ...: handler e], for handlers [h] that return
    [None] on the exceptions they do not catch. *)
Definition try_except {A} (body : M A) (h : exn -> option (M A)) : M A :=
  fun w => match body w with
           | (inr a, w') => (inr a, w')
           | (inl e, w') => match h e with
                            | Some m => m w'
                            | None => (inl e, w')
                            end
           end.

Declare Scope py_scope.
Delimit Scope py_scope with py.
Notation "x <- m ;; k" := (bind m (fun x => k))
  (at level 61, m at next level, right associativity) : py_scope.
Notation "m ;;; k" := (bind m (fun _ => k))
  (at level 61, right associativity) : py_scope.
Local Open Scope py_scope.

Definition logger_error (line : string) : M unit :=
  fun w => (inr tt, {| calls := calls w; logged := logged w ++ [line] |}).

(** ** Dynamic operations on values *)

Definition type_name (v : json) : string :=
  match v with
  | JNull => "NoneType"
  | JBool _ => "bool"
  | JInt _ => "int"
  | JStr _ => "str"
  | JList _ => "list"
  | JObj _ => "dict"
  end.

Definition is_substring (needle s : string) : bool :=
  match index 0 needle s with Some _ => true | None => false end.

Definition is_str (s : string) (v : json) : bool :=
  match v with JStr s' => String.eqb s s' | _ => false end.

(** [k in v] for a string [k]. *)
Definition py_in (k : string) (v : json) : M bool :=
  match v with
  | JObj d => ret (dict_mem d k)
  | JList l => ret (existsb (is_str k) l)
  | JStr s => ret (is_substring k s)
  | _ => raise (Raised TypeError
                  ("argument of type '" ++ type_name v ++ "' is not iterable"))
  end.

(** [v[k]] for a string [k]. *)
Definition py_getitem (v : json) (k : string) : M json :=
  match v with
  | JObj d => match dict_get d k with
              | Some x => ret x
              | None => raise (Raised KeyError k)
              end
  | JList _ => raise (Raised TypeError "list indices must be integers or slices, not str")
  | JStr _ => raise (Raised TypeError "string indices must be integers, not 'str'")
  | _ => raise (Raised TypeError
                  ("'" ++ type_name v ++ "' object is not subscriptable"))
  end.

(** [v.get(k, dflt)]: only a dict has the method. *)
Definition py_get (v : json) (k : string) (dflt : json) : M json :=
  match v with
  | JObj d => ret (match dict_get d k with Some x => x | None => dflt end)
  | _ => raise (Raised AttributeError
                  ("'" ++ type_name v ++ "' object has no attribute 'get'"))
  end.

Fixpoint chars_of (s : string) : list json :=
  match s with
  | EmptyString => []
  | String c s' => JStr (String c EmptyString) :: chars_of s'
  end.

(** The items a [for x in v] loop visits. *)
Definition py_iter (v : json) : M (list json) :=
  match v with
  | JList l => ret l
  | JObj d => ret (map (fun kv => JStr (fst kv)) d)
  | JStr s => ret (chars_of s)
  | _ => raise (Raised TypeError ("'" ++ type_name v ++ "' object is not iterable"))
  end.

(** A [for] loop that appends one computed item per element. *)
Fixpoint for_each {A B} (f : A -> M B) (l : list A) : M (list B) :=
  match l with
  | [] => ret []
  | x :: l' => y <- f x ;; ys <- for_each f l' ;; ret (y :: ys)
  end.

(** ** A strict decoder for a fragment of JSON

    [json.loads] itself is a variable of the development.  [loads_fragment]
    is one concrete decoder, used to run the tools on concrete texts: it
    accepts null, true, false, integers, strings without escapes, arrays
    and objects, and rejects every other text. *)

Definition is_ws (c : ascii) : bool :=
  let n := nat_of_ascii c in
  ((n =? 32) || (n =? 10) || (n =? 13) || (n =? 9))%nat.

Definition is_digit (c : ascii) : bool :=
  let n := nat_of_ascii c in ((48 <=? n) && (n <=? 57))%nat.

Fixpoint skip_ws (s : string) : string :=
  match s with
  | String c s' => if is_ws c then skip_ws s' else s
  | EmptyString => s
  end.

(** [expect p s]: [s] without its prefix [p]. *)
Fixpoint expect (p s : string) : option string :=
  match p, s with
  | EmptyString, _ => Some s
  | String a p', String b s' => if Ascii.eqb a b then expect p' s' else None
  | String _ _, EmptyString => None
  end.

Fixpoint take_digits (acc : Z) (s : string) : Z * string :=
  match s with
  | String c s' =>
      if is_digit c
      then take_digits (10 * acc + Z.of_nat (nat_of_ascii c - 48)) s'
      else (acc, s)
  | EmptyString => (acc, s)
  end.

(** An unsigned integer literal: no leading zero, no fraction, no exponent. *)
Definition take_nat_literal (s : string) : option (Z * string) :=
  match s with
  | String c s' =>
      if is_digit c then
        let '(n, rest) := take_digits 0 s in
        let ok_start := negb (Ascii.eqb c "0") ||
                        match s' with
                        | String c' _ => negb (is_digit c')
                        | EmptyString => true
                        end in
        let ok_end := match rest with
                      | String c' _ =>
                          negb (Ascii.eqb c' "." || Ascii.eqb c' "e" || Ascii.eqb c' "E")
                      | EmptyString => true
                      end in
        if ok_start && ok_end then Some (n, rest) else None
      else None
  | EmptyString => None
  end.

(** The characters of a string literal up to its closing quote. *)
Fixpoint take_string (s : string) : option (string * string) :=
  match s with
  | EmptyString => None
  | String c s' =>
      let n := nat_of_ascii c in
      if (n =? 34)%nat then Some (EmptyString, s')
      else if ((n =? 92) || (n <? 32))%nat then None
      else match take_string s' with
           | Some (body, rest) => Some (String c body, rest)
           | None => None
           end
  end.

Fixpoint parse_value (fuel : nat) (s : string) : option (json * string) :=
  match fuel with
  | O => None
  | S fuel' =>
      match skip_ws s with
      | EmptyString => None
      | String c s' =>
          let n := nat_of_ascii c in
          if (n =? 110)%nat then
            match expect "ull" s' with Some r => Some (JNull, r) | None => None end
          else if (n =? 116)%nat then
            match expect "rue" s' with Some r => Some (JBool true, r) | None => None end
          else if (n =? 102)%nat then
            match expect "alse" s' with Some r => Some (JBool false, r) | None => None end
          else if (n =? 34)%nat then
            match take_string s' with
            | Some (body, r) => Some (JStr body, r)
            | None => None
            end
          else if (n =? 45)%nat then
            match take_nat_literal s' with
            | Some (k, r) => Some (JInt (- k), r)
            | None => None
            end
          else if is_digit c then
            match take_nat_literal (String c s') with
            | Some (k, r) => Some (JInt k, r)
            | None => None
            end
          else if (n =? 91)%nat then
            match skip_ws s' with
            | String c' r =>
                if (nat_of_ascii c' =? 93)%nat then Some (JList [], r)
                else match parse_items fuel' s' with
                     | Some (l, r') => Some (JList l, r')
                     | None => None
                     end
            | EmptyString => None
            end
          else if (n =? 123)%nat then
            match skip_ws s' with
            | String c' r =>
                if (nat_of_ascii c' =? 125)%nat then Some (JObj [], r)
                else match parse_members fuel' [] s' with
                     | Some (d, r') => Some (JObj d, r')
                     | None => None
                     end
            | EmptyString => None
            end
          else None
      end
  end

with parse_items (fuel : nat) (s : string) : option (list json * string) :=
  match fuel with
  | O => None
  | S fuel' =>
      match parse_value fuel' s with
      | Some (v, r) =>
          match skip_ws r with
          | String c r' =>
              if (nat_of_ascii c =? 93)%nat then Some ([v], r')
              else if (nat_of_ascii c =? 44)%nat then
                match parse_items fuel' r' with
                | Some (l, r'') => Some (v :: l, r'')
                | None => None
                end
              else None
          | EmptyString => None
          end
      | None => None
      end
  end

with parse_members (fuel : nat) (acc : dict) (s : string) : option (dict * string) :=
  match fuel with
  | O => None
  | S fuel' =>
      match skip_ws s with
      | String q s1 =>
          if (nat_of_ascii q =? 34)%nat then
            match take_string s1 with
            | Some (k, s2) =>
                match skip_ws s2 with
                | String colon s3 =>
                    if (nat_of_ascii colon =? 58)%nat then
                      match parse_value fuel' s3 with
                      | Some (v, r) =>
                          match skip_ws r with
                          | String c r' =>
                              if (nat_of_ascii c =? 125)%nat
                              then Some (dict_set acc k v, r')
                              else if (nat_of_ascii c =? 44)%nat
                              then parse_members fuel' (dict_set acc k v) r'
                              else None
                          | EmptyString => None
                          end
                      | None => None
                      end
                    else None
                | EmptyString => None
                end
            | None => None
            end
          else None
      | EmptyString => None
      end
  end.

(** [inl msg] stands for a raised [JSONDecodeError] whose [str] is [msg]. *)
Definition loads_fragment (s : string) : string + json :=
  match parse_value (2 * String.length s + 2) s with
  | Some (v, rest) =>
      match skip_ws rest with
      | EmptyString => inr v
      | String _ _ => inl "Extra data"
      end
  | None => inl "Expecting value"
  end.

(** ** The adapter *)

Definition ZEPHYR_API_BASE : string := "https://api.zephyrscale.smartbear.com/v2".
Definition EU_ZEPHYR_API_BASE : string := "https://eu.api.zephyrscale.smartbear.com/v2".

(** [httpx.Response.raise_for_status]: any status outside 200..299 raises
    [HTTPStatusError] carrying the response. *)
Definition is_success (r : response) : bool :=
  (200 <=? status_code r) && (status_code r <=? 299).

Definition raise_for_status (r : response) : M unit :=
  if is_success r then ret tt else raise (HTTPStatusError r).

Definition success_marker : json := JObj (dict_of [("success", JBool true)]).

(** [bool(response.content)]. *)
Definition has_content (r : response) : bool :=
  negb (String.eqb (content r) EmptyString).

(** ** Configuration, resolved once at import *)

(** [s.lower()].  On 7-bit characters this is Python's mapping; the
    characters 128..255 are left alone, and none of them lower-cases to a
    letter of [true] in Python either. *)
Definition lower_ascii (c : ascii) : ascii :=
  let n := nat_of_ascii c in
  if ((65 <=? n) && (n <=? 90))%nat then ascii_of_nat (n + 32) else c.

Fixpoint lower (s : string) : string :=
  match s with
  | EmptyString => EmptyString
  | String c s' => String (lower_ascii c) (lower s')
  end.

(** The process environment after [load_dotenv()]. *)
Definition environ := string -> option string.

(** [os.getenv(name)] is [env name]; [os.getenv(name, dflt)] is: *)
Definition getenv_default (env : environ) (name dflt : string) : string :=
  match env name with Some v => v | None => dflt end.

Record config : Type := mk_config {
  cfg_API_TOKEN : string;
  cfg_USE_EU_REGION : bool;
  cfg_API_BASE : string
}.

(** The module-level statements of lines 17 to 26: [inl] is the
    [ValueError] that stops the import. *)
Definition load_config (env : environ) : exn + config :=
  let API_TOKEN := env "ZEPHYR_API_TOKEN" in
  let USE_EU_REGION :=
    String.eqb (lower (getenv_default env "ZEPHYR_USE_EU_REGION" "false")) "true" in
  if negb (truthy (to_json API_TOKEN)) then
    inl (Raised ValueError "ZEPHYR_API_TOKEN environment variable is not set")
  else
    inr (mk_config
           (match API_TOKEN with Some t => t | None => EmptyString end)
           USE_EU_REGION
           (if USE_EU_REGION then EU_ZEPHYR_API_BASE else ZEPHYR_API_BASE)).

Section Adapter.

(** The process environment, read once at import. *)
Variable API_TOKEN : string.
Variable USE_EU_REGION : bool.

(** The network: what the HTTP client answers to a request, either a
    response or a raised transport failure. *)
Variable transport : request -> exn + response.

(** [json.loads]: [inl msg] is a raised [JSONDecodeError]. *)
Variable json_loads : string -> string + json.

(** [repr] on values. *)
Variable py_repr : json -> string.

Definition API_BASE : string :=
  if USE_EU_REGION then EU_ZEPHYR_API_BASE else ZEPHYR_API_BASE.

(** [str(v)], as an f-string field formats it. *)
Definition py_str (v : json) : string :=
  match v with JStr s => s | _ => py_repr v end.

(** [str(e)] for the exceptions the embedding raises itself. *)
Definition str_exn (cls : exn_class) (msg : string) : string :=
  match cls with
  | KeyError => py_repr (JStr msg)
  | _ => msg
  end.

(** One invocation of the transport. *)
Definition send (r : request) : M response :=
  fun w => (transport r, {| calls := calls w ++ [r]; logged := logged w |}).

Definition client_get (url : string) (headers : list (string * string))
    (params : option json) (timeout : Z) : M response :=
  send (mk_request GET url headers None params timeout).

Definition client_post (url : string) (headers : list (string * string))
    (data params : option json) (timeout : Z) : M response :=
  send (mk_request POST url headers data params timeout).

Definition client_put (url : string) (headers : list (string * string))
    (data params : option json) (timeout : Z) : M response :=
  send (mk_request PUT url headers data params timeout).

Definition client_delete (url : string) (headers : list (string * string))
    (params : option json) (timeout : Z) : M response :=
  send (mk_request DELETE url headers None params timeout).

(** [response.json()]. *)
Definition response_json (r : response) : M json :=
  match json_loads (content r) with
  | inr v => ret v
  | inl msg => raise (Raised JSONDecodeError msg)
  end.

(** [json.loads(s)] inside a tool. *)
Definition loads (s : string) : M json :=
  match json_loads s with
  | inr v => ret v
  | inl msg => raise (Raised JSONDecodeError msg)
  end.

Definition fixed_headers : list (string * string) :=
  [("Authorization", "Bearer " ++ API_TOKEN);
   ("Content-Type", "application/json")].

Definition make_zephyr_request (method url : string)
    (data params : option json) : M json :=
  let headers := fixed_headers in
  try_except
    (response <-
       (if String.eqb (upper method) "GET" then
          client_get url headers params 30
        else if String.eqb (upper method) "POST" then
          client_post url headers data params 30
        else if String.eqb (upper method) "PUT" then
          client_put url headers data params 30
        else if String.eqb (upper method) "DELETE" then
          client_delete url headers params 30
        else raise (Raised ValueError ("Unsupported HTTP method: " ++ method))) ;;
     raise_for_status response ;;;
     if (status_code response =? 204) || negb (has_content response)
     then ret success_marker
     else response_json response)
    (fun e =>
       match e with
       | HTTPStatusError r =>
           let error_msg :=
             "HTTP " ++ str_of_Z (status_code r) ++ ": " ++ text r in
           Some (logger_error ("API error: " ++ error_msg) ;;;
                 ret (JObj (dict_of [("error", JStr error_msg);
                                     ("status_code", JInt (status_code r))])))
       | Raised cls msg =>
           let error_msg := "Request failed: " ++ str_exn cls msg in
           Some (logger_error error_msg ;;;
                 ret (JObj (dict_of [("error", JStr error_msg)])))
       end).

(** *** Idioms shared by the tools *)

(** [if x: d[k] = x]. *)
Definition set_if {A} `{PyValue A} (x : A) (k : string) (d : dict) : dict :=
  if truthy (to_json x) then dict_set d k (to_json x) else d.

(** [if "error" in data: return f"Error: {data['error']}"], then the
    rest of the tool. *)
Definition unless_error (data : json) (rest : M string) : M string :=
  found <- py_in "error" data ;;
  if found
  then (v <- py_getitem data "error" ;; ret ("Error: " ++ py_str v))
  else rest.

(** [try: payload = json.loads(s)  except json.JSONDecodeError: return msg],
    then the rest of the tool. *)
Definition with_payload (s msg : string) (rest : json -> M string) : M string :=
  r <- try_except
         (payload <- loads s ;; ret (inr payload))
         (fun e => if is_JSONDecodeError e then Some (ret (inl msg)) else None) ;;
  match r with
  | inl early => ret early
  | inr payload => rest payload
  end.

Definition echo (data : json) : M string := ret (json_dumps_indent2 data).

(** *** Test cases *)

(** One entry of the curated listing of [get_test_cases]. *)
Definition project_test_case (tc : json) : M json :=
  id_ <- py_get tc "id" JNull ;;
  key <- py_get tc "key" JNull ;;
  name <- py_get tc "name" JNull ;;
  priority <- (p <- py_get tc "priority" (JObj []) ;; py_get p "id" JNull) ;;
  status <- (s <- py_get tc "status" (JObj []) ;; py_get s "id" JNull) ;;
  objective <- py_get tc "objective" JNull ;;
  precondition <- py_get tc "precondition" JNull ;;
  estimatedTime <- py_get tc "estimatedTime" JNull ;;
  createdOn <- py_get tc "createdOn" JNull ;;
  folder <- (f <- py_get tc "folder" JNull ;;
             if truthy f
             then (f' <- py_get tc "folder" (JObj []) ;; py_get f' "id" JNull)
             else ret JNull) ;;
  owner <- (o <- py_get tc "owner" JNull ;;
            if truthy o
            then (o' <- py_get tc "owner" (JObj []) ;; py_get o' "accountId" JNull)
            else ret JNull) ;;
  ret (JObj (dict_of [("id", id_); ("key", key); ("name", name);
                      ("priority", priority); ("status", status);
                      ("objective", objective); ("precondition", precondition);
                      ("estimatedTime", estimatedTime); ("createdOn", createdOn);
                      ("folder", folder); ("owner", owner)])).

Definition get_test_cases (project_key : string) (folder_id : option Z)
    (max_results start_at : Z) : M string :=
  let params := dict_of [("projectKey", to_json project_key);
                         ("maxResults", to_json (Z.min max_results 1000));
                         ("startAt", to_json start_at)] in
  let params := set_if folder_id "folderId" params in
  let url := API_BASE ++ "/testcases" in
  data <- make_zephyr_request "GET" url None (Some (JObj params)) ;;
  unless_error data
    (test_cases <- py_get data "values" (JList []) ;;
     if negb (truthy test_cases) then ret "No test cases found."
     else
       items <- py_iter test_cases ;;
       result <- for_each project_test_case items ;;
       startAt <- py_get data "startAt" JNull ;;
       maxResults <- py_get data "maxResults" JNull ;;
       total <- py_get data "total" JNull ;;
       isLast <- py_get data "isLast" JNull ;;
       ret (json_dumps_indent2
              (JObj (dict_of
                 [("testCases", JList result);
                  ("pagination",
                   JObj (dict_of [("startAt", startAt);
                                  ("maxResults", maxResults);
                                  ("total", total);
                                  ("isLast", isLast)]))])))).

Definition get_test_case (test_case_key : string) : M string :=
  let url := API_BASE ++ "/testcases/" ++ test_case_key in
  data <- make_zephyr_request "GET" url None None ;;
  unless_error data (echo data).

Definition create_test_case (project_key name : string)
    (objective precondition priority_name status_name : option string)
    (folder_id : option Z) (owner_id : option string)
    (estimated_time component_id : option Z)
    (labels : option (list string)) : M string :=
  let payload := dict_of [("projectKey", to_json project_key);
                          ("name", to_json name)] in
  let payload := set_if objective "objective" payload in
  let payload := set_if precondition "precondition" payload in
  let payload := set_if priority_name "priorityName" payload in
  let payload := set_if status_name "statusName" payload in
  let payload := set_if folder_id "folderId" payload in
  let payload := set_if owner_id "ownerId" payload in
  let payload := set_if estimated_time "estimatedTime" payload in
  let payload := set_if component_id "componentId" payload in
  let payload := set_if labels "labels" payload in
  let url := API_BASE ++ "/testcases" in
  data <- make_zephyr_request "POST" url (Some (JObj payload)) None ;;
  unless_error data (echo data).

Definition update_test_case (test_case_key test_case_data : string) : M string :=
  with_payload test_case_data "Error: Invalid JSON format for test_case_data"
    (fun payload =>
       let url := API_BASE ++ "/testcases/" ++ test_case_key in
       data <- make_zephyr_request "PUT" url (Some payload) None ;;
       unless_error data (ret "Test case updated successfully")).

Definition get_test_case_links (test_case_key : string) : M string :=
  let url := API_BASE ++ "/testcases/" ++ test_case_key ++ "/links" in
  data <- make_zephyr_request "GET" url None None ;;
  unless_error data (echo data).

Definition create_test_case_issue_link (test_case_key : string)
    (issue_id : Z) : M string :=
  let payload := dict_of [("issueId", to_json issue_id)] in
  let url := API_BASE ++ "/testcases/" ++ test_case_key ++ "/links/issues" in
  data <- make_zephyr_request "POST" url (Some (JObj payload)) None ;;
  unless_error data (echo data).

Definition create_test_case_web_link (test_case_key url_link : string)
    (description : option string) : M string :=
  let payload := dict_of [("url", to_json url_link)] in
  let payload := set_if description "description" payload in
  let url := API_BASE ++ "/testcases/" ++ test_case_key ++ "/links/weblinks" in
  data <- make_zephyr_request "POST" url (Some (JObj payload)) None ;;
  unless_error data (echo data).

Definition get_test_case_versions (test_case_key : string)
    (max_results start_at : Z) : M string :=
  let params := dict_of [("maxResults", to_json max_results);
                         ("startAt", to_json start_at)] in
  let url := API_BASE ++ "/testcases/" ++ test_case_key ++ "/versions" in
  data <- make_zephyr_request "GET" url None (Some (JObj params)) ;;
  unless_error data (echo data).

Definition get_test_case_version (test_case_key : string) (version : Z) : M string :=
  let url := API_BASE ++ "/testcases/" ++ test_case_key ++ "/versions/"
               ++ str_of_Z version in
  data <- make_zephyr_request "GET" url None None ;;
  unless_error data (echo data).

Definition get_test_case_script (test_case_key : string) : M string :=
  let url := API_BASE ++ "/testcases/" ++ test_case_key ++ "/testscript" in
  data <- make_zephyr_request "GET" url None None ;;
  unless_error data (echo data).

Definition create_test_case_script (test_case_key script_type text_ : string)
    : M string :=
  let payload := dict_of [("type", to_json script_type);
                          ("text", to_json text_)] in
  let url := API_BASE ++ "/testcases/" ++ test_case_key ++ "/testscript" in
  data <- make_zephyr_request "POST" url (Some (JObj payload)) None ;;
  unless_error data (echo data).

Definition get_test_case_steps (test_case_key : string)
    (max_results start_at : Z) : M string :=
  let params := dict_of [("maxResults", to_json max_results);
                         ("startAt", to_json start_at)] in
  let url := API_BASE ++ "/testcases/" ++ test_case_key ++ "/teststeps" in
  data <- make_zephyr_request "GET" url None (Some (JObj params)) ;;
  unless_error data (echo data).

Definition create_test_case_steps (test_case_key steps_data : string) : M string :=
  with_payload steps_data "Error: Invalid JSON format for steps_data"
    (fun payload =>
       let url := API_BASE ++ "/testcases/" ++ test_case_key ++ "/teststeps" in
       data <- make_zephyr_request "POST" url (Some payload) None ;;
       unless_error data (echo data)).

(** *** Folders *)

Definition get_folders (project_key folder_type : option string)
    (max_results start_at : Z) : M string :=
  let params := dict_of [("maxResults", to_json (Z.min max_results 1000));
                         ("startAt", to_json start_at)] in
  let params := set_if project_key "projectKey" params in
  let params := set_if folder_type "folderType" params in
  let url := API_BASE ++ "/folders" in
  data <- make_zephyr_request "GET" url None (Some (JObj params)) ;;
  unless_error data (echo data).

Definition get_folder (folder_id : Z) : M string :=
  let url := API_BASE ++ "/folders/" ++ str_of_Z folder_id in
  data <- make_zephyr_request "GET" url None None ;;
  unless_error data (echo data).

Definition create_folder (project_key name folder_type : string)
    (parent_id : option Z) : M string :=
  let payload := dict_of [("projectKey", to_json project_key);
                          ("name", to_json name);
                          ("folderType", to_json folder_type)] in
  let payload := set_if parent_id "parentId" payload in
  let url := API_BASE ++ "/folders" in
  data <- make_zephyr_request "POST" url (Some (JObj payload)) None ;;
  unless_error data (echo data).

(** *** Test cycles *)

Definition get_test_cycles (project_key : option string)
    (folder_id jira_project_version_id : option Z)
    (max_results start_at : Z) : M string :=
  let params := dict_of [("maxResults", to_json (Z.min max_results 1000));
                         ("startAt", to_json start_at)] in
  let params := set_if project_key "projectKey" params in
  let params := set_if folder_id "folderId" params in
  let params := set_if jira_project_version_id "jiraProjectVersionId" params in
  let url := API_BASE ++ "/testcycles" in
  data <- make_zephyr_request "GET" url None (Some (JObj params)) ;;
  unless_error data (echo data).

Definition get_test_cycle (test_cycle_id_or_key : string) : M string :=
  let url := API_BASE ++ "/testcycles/" ++ test_cycle_id_or_key in
  data <- make_zephyr_request "GET" url None None ;;
  unless_error data (echo data).

Definition create_test_cycle (project_key name : string)
    (description planned_start_date planned_end_date status_name : option string)
    (folder_id : option Z) (owner_id : option string)
    (jira_project_version_id : option Z) : M string :=
  let payload := dict_of [("projectKey", to_json project_key);
                          ("name", to_json name)] in
  let payload := set_if description "description" payload in
  let payload := set_if planned_start_date "plannedStartDate" payload in
  let payload := set_if planned_end_date "plannedEndDate" payload in
  let payload := set_if status_name "statusName" payload in
  let payload := set_if folder_id "folderId" payload in
  let payload := set_if owner_id "ownerId" payload in
  let payload := set_if jira_project_version_id "jiraProjectVersion" payload in
  let url := API_BASE ++ "/testcycles" in
  data <- make_zephyr_request "POST" url (Some (JObj payload)) None ;;
  unless_error data (echo data).

Definition update_test_cycle (test_cycle_id_or_key test_cycle_data : string)
    : M string :=
  with_payload test_cycle_data "Error: Invalid JSON format for test_cycle_data"
    (fun payload =>
       let url := API_BASE ++ "/testcycles/" ++ test_cycle_id_or_key in
       data <- make_zephyr_request "PUT" url (Some payload) None ;;
       unless_error data (ret "Test cycle updated successfully")).

(** *** Test executions *)

Definition get_test_executions
    (project_key test_cycle test_case actual_end_date_after
       actual_end_date_before : option string)
    (jira_project_version_id : option Z)
    (only_last_executions include_step_links : bool)
    (max_results start_at : Z) : M string :=
  let params := dict_of [("maxResults", to_json (Z.min max_results 1000));
                         ("startAt", to_json start_at);
                         ("onlyLastExecutions", to_json only_last_executions);
                         ("includeStepLinks", to_json include_step_links)] in
  let params := set_if project_key "projectKey" params in
  let params := set_if test_cycle "testCycle" params in
  let params := set_if test_case "testCase" params in
  let params := set_if actual_end_date_after "actualEndDateAfter" params in
  let params := set_if actual_end_date_before "actualEndDateBefore" params in
  let params := set_if jira_project_version_id "jiraProjectVersionId" params in
  let url := API_BASE ++ "/testexecutions" in
  data <- make_zephyr_request "GET" url None (Some (JObj params)) ;;
  unless_error data (echo data).

Definition get_test_execution (test_execution_id_or_key : string)
    (include_step_links : bool) : M string :=
  let params := dict_of [("includeStepLinks", to_json include_step_links)] in
  let url := API_BASE ++ "/testexecutions/" ++ test_execution_id_or_key in
  data <- make_zephyr_request "GET" url None (Some (JObj params)) ;;
  unless_error data (echo data).

Definition create_test_execution
    (project_key test_case_key test_cycle_key status_name : string)
    (environment_name actual_end_date : option string)
    (execution_time : option Z)
    (executed_by_id assigned_to_id comment : option string) : M string :=
  let payload := dict_of [("projectKey", to_json project_key);
                          ("testCaseKey", to_json test_case_key);
                          ("testCycleKey", to_json test_cycle_key);
                          ("statusName", to_json status_name)] in
  let payload := set_if environment_name "environmentName" payload in
  let payload := set_if actual_end_date "actualEndDate" payload in
  let payload := set_if execution_time "executionTime" payload in
  let payload := set_if executed_by_id "executedById" payload in
  let payload := set_if assigned_to_id "assignedToId" payload in
  let payload := set_if comment "comment" payload in
  let url := API_BASE ++ "/testexecutions" in
  data <- make_zephyr_request "POST" url (Some (JObj payload)) None ;;
  unless_error data (echo data).

Definition update_test_execution (test_execution_id_or_key execution_data : string)
    : M string :=
  with_payload execution_data "Error: Invalid JSON format for execution_data"
    (fun payload =>
       let url := API_BASE ++ "/testexecutions/" ++ test_execution_id_or_key in
       data <- make_zephyr_request "PUT" url (Some payload) None ;;
       unless_error data (ret "Test execution updated successfully")).

(** *** Projects *)

Definition get_projects (max_results start_at : Z) : M string :=
  let params := dict_of [("maxResults", to_json (Z.min max_results 1000));
                         ("startAt", to_json start_at)] in
  let url := API_BASE ++ "/projects" in
  data <- make_zephyr_request "GET" url None (Some (JObj params)) ;;
  unless_error data (echo data).

Definition get_project (project_id_or_key : string) : M string :=
  let url := API_BASE ++ "/projects/" ++ project_id_or_key in
  data <- make_zephyr_request "GET" url None None ;;
  unless_error data (echo data).

(** *** Priorities *)

Definition get_priorities (project_key : option string)
    (max_results start_at : Z) : M string :=
  let params := dict_of [("maxResults", to_json (Z.min max_results 1000));
                         ("startAt", to_json start_at)] in
  let params := set_if project_key "projectKey" params in
  let url := API_BASE ++ "/priorities" in
  data <- make_zephyr_request "GET" url None (Some (JObj params)) ;;
  unless_error data (echo data).

Definition get_priority (priority_id : Z) : M string :=
  let url := API_BASE ++ "/priorities/" ++ str_of_Z priority_id in
  data <- make_zephyr_request "GET" url None None ;;
  unless_error data (echo data).

Definition create_priority (project_key name : string)
    (description color : option string) : M string :=
  let payload := dict_of [("projectKey", to_json project_key);
                          ("name", to_json name)] in
  let payload := set_if description "description" payload in
  let payload := set_if color "color" payload in
  let url := API_BASE ++ "/priorities" in
  data <- make_zephyr_request "POST" url (Some (JObj payload)) None ;;
  unless_error data (echo data).

Definition update_priority (priority_id : Z) (priority_data : string) : M string :=
  with_payload priority_data "Error: Invalid JSON format for priority_data"
    (fun payload =>
       let url := API_BASE ++ "/priorities/" ++ str_of_Z priority_id in
       data <- make_zephyr_request "PUT" url (Some payload) None ;;
       unless_error data (ret "Priority updated successfully")).

(** *** Statuses *)

Definition get_statuses (project_key status_type : option string)
    (max_results start_at : Z) : M string :=
  let params := dict_of [("maxResults", to_json (Z.min max_results 1000));
                         ("startAt", to_json start_at)] in
  let params := set_if project_key "projectKey" params in
  let params := set_if status_type "statusType" params in
  let url := API_BASE ++ "/statuses" in
  data <- make_zephyr_request "GET" url None (Some (JObj params)) ;;
  unless_error data (echo data).

Definition get_status (status_id : Z) : M string :=
  let url := API_BASE ++ "/statuses/" ++ str_of_Z status_id in
  data <- make_zephyr_request "GET" url None None ;;
  unless_error data (echo data).

Definition create_status (project_key name status_type : string)
    (description color : option string) : M string :=
  let payload := dict_of [("projectKey", to_json project_key);
                          ("name", to_json name);
                          ("type", to_json status_type)] in
  let payload := set_if description "description" payload in
  let payload := set_if color "color" payload in
  let url := API_BASE ++ "/statuses" in
  data <- make_zephyr_request "POST" url (Some (JObj payload)) None ;;
  unless_error data (echo data).

Definition update_status (status_id : Z) (status_data : string) : M string :=
  with_payload status_data "Error: Invalid JSON format for status_data"
    (fun payload =>
       let url := API_BASE ++ "/statuses/" ++ str_of_Z status_id in
       data <- make_zephyr_request "PUT" url (Some payload) None ;;
       unless_error data (ret "Status updated successfully")).

(** *** Environments *)

Definition get_environments (project_key : option string)
    (max_results start_at : Z) : M string :=
  let params := dict_of [("maxResults", to_json (Z.min max_results 1000));
                         ("startAt", to_json start_at)] in
  let params := set_if project_key "projectKey" params in
  let url := API_BASE ++ "/environments" in
  data <- make_zephyr_request "GET" url None (Some (JObj params)) ;;
  unless_error data (echo data).

Definition get_environment (environment_id : Z) : M string :=
  let url := API_BASE ++ "/environments/" ++ str_of_Z environment_id in
  data <- make_zephyr_request "GET" url None None ;;
  unless_error data (echo data).

Definition create_environment (project_key name : string)
    (description : option string) : M string :=
  let payload := dict_of [("projectKey", to_json project_key);
                          ("name", to_json name)] in
  let payload := set_if description "description" payload in
  let url := API_BASE ++ "/environments" in
  data <- make_zephyr_request "POST" url (Some (JObj payload)) None ;;
  unless_error data (echo data).

Definition update_environment (environment_id : Z) (environment_data : string)
    : M string :=
  with_payload environment_data "Error: Invalid JSON format for environment_data"
    (fun payload =>
       let url := API_BASE ++ "/environments/" ++ str_of_Z environment_id in
       data <- make_zephyr_request "PUT" url (Some payload) None ;;
       unless_error data (ret "Environment updated successfully")).

(** *** Links and issue links *)

Definition delete_link (link_id : Z) : M string :=
  let url := API_BASE ++ "/links/" ++ str_of_Z link_id in
  data <- make_zephyr_request "DELETE" url None None ;;
  unless_error data (ret "Link deleted successfully").

Definition get_issue_link_test_cases (issue_key : string) : M string :=
  let url := API_BASE ++ "/issuelinks/" ++ issue_key ++ "/testcases" in
  data <- make_zephyr_request "GET" url None None ;;
  unless_error data (echo data).

Definition get_issue_link_test_cycles (issue_key : string) : M string :=
  let url := API_BASE ++ "/issuelinks/" ++ issue_key ++ "/testcycles" in
  data <- make_zephyr_request "GET" url None None ;;
  unless_error data (echo data).

Definition get_issue_link_test_plans (issue_key : string) : M string :=
  let url := API_BASE ++ "/issuelinks/" ++ issue_key ++ "/testplans" in
  data <- make_zephyr_request "GET" url None None ;;
  unless_error data (echo data).

Definition get_issue_link_test_executions (issue_key : string) : M string :=
  let url := API_BASE ++ "/issuelinks/" ++ issue_key ++ "/executions" in
  data <- make_zephyr_request "GET" url None None ;;
  unless_error data (echo data).

(** *** Health check *)

Definition health_check : M string :=
  let url := API_BASE ++ "/healthcheck" in
  data <- make_zephyr_request "GET" url None None ;;
  unless_error data (ret "API is healthy").

(** *** Utility *)

Definition get_api_info : M string :=
  let names (l : list string) : json := to_json l in
  let info := dict_of
    [("api_base", to_json API_BASE);
     ("region", to_json (if USE_EU_REGION then "EU" else "Global"));
     ("authentication",
      to_json (if truthy (to_json API_TOKEN)
               then "JWT Bearer Token" else "Not configured"));
     ("available_endpoints",
      JObj (dict_of
        [("test_cases",
          names ["get_test_cases"; "get_test_case"; "create_test_case";
                 "update_test_case"; "get_test_case_links";
                 "create_test_case_issue_link"; "create_test_case_web_link";
                 "get_test_case_versions"; "get_test_case_version";
                 "get_test_case_script"; "create_test_case_script";
                 "get_test_case_steps"; "create_test_case_steps"]);
         ("folders", names ["get_folders"; "get_folder"; "create_folder"]);
         ("test_cycles",
          names ["get_test_cycles"; "get_test_cycle"; "create_test_cycle";
                 "update_test_cycle"]);
         ("test_executions",
          names ["get_test_executions"; "get_test_execution";
                 "create_test_execution"; "update_test_execution"]);
         ("projects", names ["get_projects"; "get_project"]);
         ("priorities",
          names ["get_priorities"; "get_priority"; "create_priority";
                 "update_priority"]);
         ("statuses",
          names ["get_statuses"; "get_status"; "create_status"; "update_status"]);
         ("environments",
          names ["get_environments"; "get_environment"; "create_environment";
                 "update_environment"]);
         ("links", names ["delete_link"]);
         ("issue_links",
          names ["get_issue_link_test_cases"; "get_issue_link_test_cycles";
                 "get_issue_link_test_plans"; "get_issue_link_test_executions"]);
         ("utilities", names ["health_check"; "get_api_info"])]))] in
  ret (json_dumps_indent2 (JObj info)).

(** *** The tool registry

    A call of a registered tool: its name and its typed arguments. *)

Inductive tool_call : Type :=
| Call_get_test_cases (project_key : string) (folder_id : option Z)
    (max_results start_at : Z)
| Call_get_test_case (test_case_key : string)
| Call_create_test_case (project_key name : string)
    (objective precondition priority_name status_name : option string)
    (folder_id : option Z) (owner_id : option string)
    (estimated_time component_id : option Z) (labels : option (list string))
| Call_update_test_case (test_case_key test_case_data : string)
| Call_get_test_case_links (test_case_key : string)
| Call_create_test_case_issue_link (test_case_key : string) (issue_id : Z)
| Call_create_test_case_web_link (test_case_key url_link : string)
    (description : option string)
| Call_get_test_case_versions (test_case_key : string) (max_results start_at : Z)
| Call_get_test_case_version (test_case_key : string) (version : Z)
| Call_get_test_case_script (test_case_key : string)
| Call_create_test_case_script (test_case_key script_type text_ : string)
| Call_get_test_case_steps (test_case_key : string) (max_results start_at : Z)
| Call_create_test_case_steps (test_case_key steps_data : string)
| Call_get_folders (project_key folder_type : option string)
    (max_results start_at : Z)
| Call_get_folder (folder_id : Z)
| Call_create_folder (project_key name folder_type : string) (parent_id : option Z)
| Call_get_test_cycles (project_key : option string)
    (folder_id jira_project_version_id : option Z) (max_results start_at : Z)
| Call_get_test_cycle (test_cycle_id_or_key : string)
| Call_create_test_cycle (project_key name : string)
    (description planned_start_date planned_end_date status_name : option string)
    (folder_id : option Z) (owner_id : option string)
    (jira_project_version_id : option Z)
| Call_update_test_cycle (test_cycle_id_or_key test_cycle_data : string)
| Call_get_test_executions
    (project_key test_cycle test_case actual_end_date_after
       actual_end_date_before : option string)
    (jira_project_version_id : option Z)
    (only_last_executions include_step_links : bool) (max_results start_at : Z)
| Call_get_test_execution (test_execution_id_or_key : string)
    (include_step_links : bool)
| Call_create_test_execution
    (project_key test_case_key test_cycle_key status_name : string)
    (environment_name actual_end_date : option string) (execution_time : option Z)
    (executed_by_id assigned_to_id comment : option string)
| Call_update_test_execution (test_execution_id_or_key execution_data : string)
| Call_get_projects (max_results start_at : Z)
| Call_get_project (project_id_or_key : string)
| Call_get_priorities (project_key : option string) (max_results start_at : Z)
| Call_get_priority (priority_id : Z)
| Call_create_priority (project_key name : string)
    (description color : option string)
| Call_update_priority (priority_id : Z) (priority_data : string)
| Call_get_statuses (project_key status_type : option string)
    (max_results start_at : Z)
| Call_get_status (status_id : Z)
| Call_create_status (project_key name status_type : string)
    (description color : option string)
| Call_update_status (status_id : Z) (status_data : string)
| Call_get_environments (project_key : option string) (max_results start_at : Z)
| Call_get_environment (environment_id : Z)
| Call_create_environment (project_key name : string) (description : option string)
| Call_update_environment (environment_id : Z) (environment_data : string)
| Call_delete_link (link_id : Z)
| Call_get_issue_link_test_cases (issue_key : string)
| Call_get_issue_link_test_cycles (issue_key : string)
| Call_get_issue_link_test_plans (issue_key : string)
| Call_get_issue_link_test_executions (issue_key : string)
| Call_health_check
| Call_get_api_info.

(** Dispatch of an inbound call to its tool. *)
Definition run_tool (c : tool_call) : M string :=
  match c with
  | Call_get_test_cases a b c d => get_test_cases a b c d
  | Call_get_test_case a => get_test_case a
  | Call_create_test_case a b c d e f g h i j k =>
      create_test_case a b c d e f g h i j k
  | Call_update_test_case a b => update_test_case a b
  | Call_get_test_case_links a => get_test_case_links a
  | Call_create_test_case_issue_link a b => create_test_case_issue_link a b
  | Call_create_test_case_web_link a b c => create_test_case_web_link a b c
  | Call_get_test_case_versions a b c => get_test_case_versions a b c
  | Call_get_test_case_version a b => get_test_case_version a b
  | Call_get_test_case_script a => get_test_case_script a
  | Call_create_test_case_script a b c => create_test_case_script a b c
  | Call_get_test_case_steps a b c => get_test_case_steps a b c
  | Call_create_test_case_steps a b => create_test_case_steps a b
  | Call_get_folders a b c d => get_folders a b c d
  | Call_get_folder a => get_folder a
  | Call_create_folder a b c d => create_folder a b c d
  | Call_get_test_cycles a b c d e => get_test_cycles a b c d e
  | Call_get_test_cycle a => get_test_cycle a
  | Call_create_test_cycle a b c d e f g h i =>
      create_test_cycle a b c d e f g h i
  | Call_update_test_cycle a b => update_test_cycle a b
  | Call_get_test_executions a b c d e f g h i j =>
      get_test_executions a b c d e f g h i j
  | Call_get_test_execution a b => get_test_execution a b
  | Call_create_test_execution a b c d e f g h i j =>
      create_test_execution a b c d e f g h i j
  | Call_update_test_execution a b => update_test_execution a b
  | Call_get_projects a b => get_projects a b
  | Call_get_project a => get_project a
  | Call_get_priorities a b c => get_priorities a b c
  | Call_get_priority a => get_priority a
  | Call_create_priority a b c d => create_priority a b c d
  | Call_update_priority a b => update_priority a b
  | Call_get_statuses a b c d => get_statuses a b c d
  | Call_get_status a => get_status a
  | Call_create_status a b c d e => create_status a b c d e
  | Call_update_status a b => update_status a b
  | Call_get_environments a b c => get_environments a b c
  | Call_get_environment a => get_environment a
  | Call_create_environment a b c => create_environment a b c
  | Call_update_environment a b => update_environment a b
  | Call_delete_link a => delete_link a
  | Call_get_issue_link_test_cases a => get_issue_link_test_cases a
  | Call_get_issue_link_test_cycles a => get_issue_link_test_cycles a
  | Call_get_issue_link_test_plans a => get_issue_link_test_plans a
  | Call_get_issue_link_test_executions a => get_issue_link_test_executions a
  | Call_health_check => health_check
  | Call_get_api_info => get_api_info
  end.

(** ** Vocabulary of the properties *)

(** The method strings the executor accepts. *)
Definition is_supported (method : string) : bool :=
  String.eqb (upper method) "GET" || String.eqb (upper method) "POST"
  || String.eqb (upper method) "PUT" || String.eqb (upper method) "DELETE".

(** The request descriptor the executor hands to the transport. *)
Definition request_for (method url : string) (data params : option json)
    : option request :=
  if String.eqb (upper method) "GET" then
    Some (mk_request GET url fixed_headers None params 30)
  else if String.eqb (upper method) "POST" then
    Some (mk_request POST url fixed_headers data params 30)
  else if String.eqb (upper method) "PUT" then
    Some (mk_request PUT url fixed_headers data params 30)
  else if String.eqb (upper method) "DELETE" then
    Some (mk_request DELETE url fixed_headers None params 30)
  else None.

(** The uniform error record of an HTTP-level failure. *)
Definition http_error_record (r : response) : json :=
  JObj [("error", JStr ("HTTP " ++ str_of_Z (status_code r) ++ ": " ++ text r));
        ("status_code", JInt (status_code r))].

(** A computation that never invokes the transport. *)
Definition no_io {A} (m : M A) : Prop :=
  forall w, calls (snd (m w)) = calls w.

(** The fields of the outgoing body and query of a request. *)
Definition fields_of (o : option json) : dict :=
  match o with Some (JObj d) => d | _ => [] end.

Definition outgoing (r : request) : dict :=
  (fields_of (req_json r) ++ fields_of (req_params r))%list.

(** The parameters declared [Optional[...] = None], each with the upstream
    field name the tool stores it under and its runtime value. *)
Definition optional_args (c : tool_call) : list (string * json) :=
  match c with
  | Call_get_test_cases _ folder_id _ _ => [("folderId", to_json folder_id)]
  | Call_create_test_case _ _ objective precondition priority_name status_name
      folder_id owner_id estimated_time component_id labels =>
      [("objective", to_json objective); ("precondition", to_json precondition);
       ("priorityName", to_json priority_name); ("statusName", to_json status_name);
       ("folderId", to_json folder_id); ("ownerId", to_json owner_id);
       ("estimatedTime", to_json estimated_time);
       ("componentId", to_json component_id); ("labels", to_json labels)]
  | Call_create_test_case_web_link _ _ description =>
      [("description", to_json description)]
  | Call_get_folders project_key folder_type _ _ =>
      [("projectKey", to_json project_key); ("folderType", to_json folder_type)]
  | Call_create_folder _ _ _ parent_id => [("parentId", to_json parent_id)]
  | Call_get_test_cycles project_key folder_id jira_project_version_id _ _ =>
      [("projectKey", to_json project_key); ("folderId", to_json folder_id);
       ("jiraProjectVersionId", to_json jira_project_version_id)]
  | Call_create_test_cycle _ _ description planned_start_date planned_end_date
      status_name folder_id owner_id jira_project_version_id =>
      [("description", to_json description);
       ("plannedStartDate", to_json planned_start_date);
       ("plannedEndDate", to_json planned_end_date);
       ("statusName", to_json status_name); ("folderId", to_json folder_id);
       ("ownerId", to_json owner_id);
       ("jiraProjectVersion", to_json jira_project_version_id)]
  | Call_get_test_executions project_key test_cycle test_case
      actual_end_date_after actual_end_date_before jira_project_version_id _ _ _ _ =>
      [("projectKey", to_json project_key); ("testCycle", to_json test_cycle);
       ("testCase", to_json test_case);
       ("actualEndDateAfter", to_json actual_end_date_after);
       ("actualEndDateBefore", to_json actual_end_date_before);
       ("jiraProjectVersionId", to_json jira_project_version_id)]
  | Call_create_test_execution _ _ _ _ environment_name actual_end_date
      execution_time executed_by_id assigned_to_id comment =>
      [("environmentName", to_json environment_name);
       ("actualEndDate", to_json actual_end_date);
       ("executionTime", to_json execution_time);
       ("executedById", to_json executed_by_id);
       ("assignedToId", to_json assigned_to_id); ("comment", to_json comment)]
  | Call_get_priorities project_key _ _ => [("projectKey", to_json project_key)]
  | Call_create_priority _ _ description color =>
      [("description", to_json description); ("color", to_json color)]
  | Call_get_statuses project_key status_type _ _ =>
      [("projectKey", to_json project_key); ("statusType", to_json status_type)]
  | Call_create_status _ _ _ description color =>
      [("description", to_json description); ("color", to_json color)]
  | Call_get_environments project_key _ _ => [("projectKey", to_json project_key)]
  | Call_create_environment _ _ description =>
      [("description", to_json description)]
  | _ => []
  end.

(** The parameters with a default other than [None] that a tool forwards as
    they are: the offset [start_at] and the boolean flags. *)
Definition defaulted_args (c : tool_call) : list (string * json) :=
  match c with
  | Call_get_test_cases _ _ _ start_at
  | Call_get_test_case_versions _ _ start_at
  | Call_get_test_case_steps _ _ start_at
  | Call_get_folders _ _ _ start_at
  | Call_get_test_cycles _ _ _ _ start_at
  | Call_get_projects _ start_at
  | Call_get_priorities _ _ start_at
  | Call_get_statuses _ _ _ start_at
  | Call_get_environments _ _ start_at => [("startAt", to_json start_at)]
  | Call_get_test_executions _ _ _ _ _ _ only_last_executions include_step_links
      _ start_at =>
      [("startAt", to_json start_at);
       ("onlyLastExecutions", to_json only_last_executions);
       ("includeStepLinks", to_json include_step_links)]
  | Call_get_test_execution _ include_step_links =>
      [("includeStepLinks", to_json include_step_links)]
  | _ => []
  end.

(** The [max_results] argument of the tools that take one. *)
Definition max_results_arg (c : tool_call) : option Z :=
  match c with
  | Call_get_test_cases _ _ m _
  | Call_get_test_case_versions _ m _
  | Call_get_test_case_steps _ m _
  | Call_get_folders _ _ m _
  | Call_get_test_cycles _ _ _ m _
  | Call_get_test_executions _ _ _ _ _ _ _ _ m _
  | Call_get_projects m _
  | Call_get_priorities _ m _
  | Call_get_statuses _ _ m _
  | Call_get_environments _ m _ => Some m
  | _ => None
  end.

(** The two listings whose docstring names no maximum. *)
Definition forwards_max_results (c : tool_call) : bool :=
  match c with
  | Call_get_test_case_versions _ _ _ | Call_get_test_case_steps _ _ _ => true
  | _ => false
  end.

(** The raw-payload parameter of the tools that take one: its name and the
    JSON text passed for it. *)
Definition raw_payload (c : tool_call) : option (string * string) :=
  match c with
  | Call_update_test_case _ s => Some ("test_case_data", s)
  | Call_create_test_case_steps _ s => Some ("steps_data", s)
  | Call_update_test_cycle _ s => Some ("test_cycle_data", s)
  | Call_update_test_execution _ s => Some ("execution_data", s)
  | Call_update_priority _ s => Some ("priority_data", s)
  | Call_update_status _ s => Some ("status_data", s)
  | Call_update_environment _ s => Some ("environment_data", s)
  | _ => None
  end.

(** Whether the raw payload of a call, if it has one, decodes. *)
Definition payload_decodes (c : tool_call) : bool :=
  match raw_payload c with
  | Some (_, s) => match json_loads s with inr _ => true | inl _ => false end
  | None => true
  end.

Definition calls_executor (c : tool_call) : bool :=
  match c with Call_get_api_info => false | _ => true end.

(** *** The curated listing, stated directly *)

Definition get_or (d : dict) (k : string) (dflt : json) : json :=
  match dict_get d k with Some v => v | None => dflt end.

(** The field [sub] of the object stored under [k], when there is one. *)
Definition nested (t : dict) (k sub : string) : json :=
  match dict_get t k with
  | Some (JObj o) => get_or o sub JNull
  | _ => JNull
  end.

Definition projection (tc : json) : json :=
  match tc with
  | JObj t =>
      JObj [("id", get_or t "id" JNull); ("key", get_or t "key" JNull);
            ("name", get_or t "name" JNull);
            ("priority", nested t "priority" "id");
            ("status", nested t "status" "id");
            ("objective", get_or t "objective" JNull);
            ("precondition", get_or t "precondition" JNull);
            ("estimatedTime", get_or t "estimatedTime" JNull);
            ("createdOn", get_or t "createdOn" JNull);
            ("folder", nested t "folder" "id");
            ("owner", nested t "owner" "accountId")]
  | _ => JNull
  end.

Definition listing (d : dict) (tcs : list json) : json :=
  JObj [("testCases", JList (map projection tcs));
        ("pagination",
         JObj [("startAt", get_or d "startAt" JNull);
               ("maxResults", get_or d "maxResults" JNull);
               ("total", get_or d "total" JNull);
               ("isLast", get_or d "isLast" JNull)])].

Definition is_obj (v : json) : bool :=
  match v with JObj _ => true | _ => false end.

(** A field that is absent or an object. *)
Definition absent_or_obj (o : option json) : bool :=
  match o with None => true | Some v => is_obj v end.

(** A field that is absent, falsy or an object. *)
Definition falsy_or_obj (o : option json) : bool :=
  match o with None => true | Some v => negb (truthy v) || is_obj v end.

(** A test case the listing can project: an object whose [priority] and
    [status] are absent or objects and whose [folder] and [owner] are
    absent, falsy or objects. *)
Definition projectable (tc : json) : bool :=
  match tc with
  | JObj t =>
      absent_or_obj (dict_get t "priority") && absent_or_obj (dict_get t "status")
      && falsy_or_obj (dict_get t "folder") && falsy_or_obj (dict_get t "owner")
  | _ => false
  end.

(** A test case whose [priority] or [status] is an explicit null. *)
Definition has_null_priority_or_status (tc : json) : bool :=
  match tc with
  | JObj t =>
      match dict_get t "priority", dict_get t "status" with
      | Some JNull, _ | _, Some JNull => true
      | _, _ => false
      end
  | _ => false
  end.

(** *** Concrete surroundings, to run the tools *)

Definition w0 : world := mk_world [] [].

(** An upstream that answers every request with the same response. *)
Definition always (r : response) : request -> exn + response := fun _ => inr r.

(** An upstream that must not be reached: it fails every request. *)
Definition unreachable : request -> exn + response :=
  fun _ => inl (Raised RequestError "connection refused").

(** A printer standing in for [repr]. *)
Definition show : json -> string := json_dumps_indent2.

Definition body_of (v : json) : string := json_dumps_indent2 v.

Definition not_found : response := mk_response 404 "Not Found".

Definition not_found_empty : response := mk_response 404 EmptyString.

Definition no_content : response := mk_response 204 EmptyString.

(** A listing of one well-formed test case. *)
Definition one_case : dict :=
  [("values",
    JList [JObj [("id", JInt 1); ("key", JStr "SM-T1");
                 ("priority", JObj [("id", JInt 3)]);
                 ("folder", JNull); ("owner", JNull)]]);
   ("startAt", JInt 0); ("maxResults", JInt 25); ("total", JInt 1);
   ("isLast", JBool true)].

(** A listing whose only test case has an explicit null status. *)
Definition null_status_case : dict :=
  [("values", JList [JObj [("key", JStr "SM-T1"); ("status", JNull)]])].

(** A 2xx body that carries an ["error"] field of its own. *)
Definition error_field : dict := [("error", JStr "quota exceeded")].

Definition ok (d : dict) : response := mk_response 200 (body_of (JObj d)).

(** The uniform error record of a transport or decoding failure. *)
Definition failure_record (msg : string) : json :=
  JObj [("error", JStr ("Request failed: " ++ msg))].

(** How the executor interprets what the transport did: the outcome it
    returns and the lines it logs. *)
Definition classify (t : exn + response) : json * list string :=
  match t with
  | inl (HTTPStatusError r) =>
      (http_error_record r,
       ["API error: HTTP " ++ str_of_Z (status_code r) ++ ": " ++ text r])
  | inl (Raised cls msg) =>
      (failure_record (str_exn cls msg), ["Request failed: " ++ str_exn cls msg])
  | inr r =>
      if is_success r then
        if (status_code r =? 204) || negb (has_content r) then (success_marker, [])
        else match json_loads (content r) with
             | inr v => (v, [])
             | inl msg => (failure_record msg, ["Request failed: " ++ msg])
             end
      else
        (http_error_record r,
         ["API error: HTTP " ++ str_of_Z (status_code r) ++ ": " ++ text r])
  end.

(** The upstream answers every request with one 2xx response, which the
    executor turns into the outcome [v]: the success marker for status 204
    or an empty body, the decoded body otherwise. *)
Definition upstream_succeeds_with (v : json) : Prop :=
  exists resp,
    (forall r, transport r = inr resp) /\
    is_success resp = true /\
    (((status_code resp = 204 \/ content resp = EmptyString)
      /\ v = success_marker)
     \/ (status_code resp <> 204 /\ content resp <> EmptyString
         /\ json_loads (content resp) = inr v)).

(** A computation that leaves the world alone and either returns or raises
    [AttributeError]. *)
Definition attr_only {A} (m : M A) : Prop :=
  forall w, (exists a, m w = (inr a, w)) \/
            (exists msg, m w = (inl (Raised AttributeError msg), w)).

(** The executor returns the outcome [v] for every supported call. *)
Definition executor_yields (v : json) : Prop :=
  forall method url data params w,
    is_supported method = true ->
    exists w', make_zephyr_request method url data params w = (inr v, w').

(** The HTTP verb of each tool, [None] for the tool that sends nothing. *)
Definition tool_verb (c : tool_call) : option verb :=
  match c with
  | Call_create_test_case _ _ _ _ _ _ _ _ _ _ _
  | Call_create_test_case_issue_link _ _
  | Call_create_test_case_web_link _ _ _
  | Call_create_test_case_script _ _ _
  | Call_create_test_case_steps _ _
  | Call_create_folder _ _ _ _
  | Call_create_test_cycle _ _ _ _ _ _ _ _ _
  | Call_create_test_execution _ _ _ _ _ _ _ _ _ _
  | Call_create_priority _ _ _ _
  | Call_create_status _ _ _ _ _
  | Call_create_environment _ _ _ => Some POST
  | Call_update_test_case _ _
  | Call_update_test_cycle _ _
  | Call_update_test_execution _ _
  | Call_update_priority _ _
  | Call_update_status _ _
  | Call_update_environment _ _ => Some PUT
  | Call_delete_link _ => Some DELETE
  | Call_get_api_info => None
  | _ => Some GET
  end.

(** The entries of the dict display a tool starts its body or query from. *)
Definition fixed_fields (c : tool_call) : list (string * json) :=
  match c with
  | Call_get_test_cases project_key _ max_results start_at =>
      [("projectKey", to_json project_key);
       ("maxResults", to_json (Z.min max_results 1000));
       ("startAt", to_json start_at)]
  | Call_create_test_case project_key name _ _ _ _ _ _ _ _ _ =>
      [("projectKey", to_json project_key); ("name", to_json name)]
  | Call_create_test_case_issue_link _ issue_id => [("issueId", to_json issue_id)]
  | Call_create_test_case_web_link _ url_link _ => [("url", to_json url_link)]
  | Call_get_test_case_versions _ max_results start_at
  | Call_get_test_case_steps _ max_results start_at =>
      [("maxResults", to_json max_results); ("startAt", to_json start_at)]
  | Call_create_test_case_script _ script_type text_ =>
      [("type", to_json script_type); ("text", to_json text_)]
  | Call_get_folders _ _ max_results start_at
  | Call_get_test_cycles _ _ _ max_results start_at
  | Call_get_projects max_results start_at
  | Call_get_priorities _ max_results start_at
  | Call_get_statuses _ _ max_results start_at
  | Call_get_environments _ max_results start_at =>
      [("maxResults", to_json (Z.min max_results 1000));
       ("startAt", to_json start_at)]
  | Call_create_folder project_key name folder_type _ =>
      [("projectKey", to_json project_key); ("name", to_json name);
       ("folderType", to_json folder_type)]
  | Call_create_test_cycle project_key name _ _ _ _ _ _ _ =>
      [("projectKey", to_json project_key); ("name", to_json name)]
  | Call_get_test_executions _ _ _ _ _ _ only_last_executions include_step_links
      max_results start_at =>
      [("maxResults", to_json (Z.min max_results 1000));
       ("startAt", to_json start_at);
       ("onlyLastExecutions", to_json only_last_executions);
       ("includeStepLinks", to_json include_step_links)]
  | Call_get_test_execution _ include_step_links =>
      [("includeStepLinks", to_json include_step_links)]
  | Call_create_test_execution project_key test_case_key test_cycle_key
      status_name _ _ _ _ _ _ =>
      [("projectKey", to_json project_key); ("testCaseKey", to_json test_case_key);
       ("testCycleKey", to_json test_cycle_key); ("statusName", to_json status_name)]
  | Call_create_priority project_key name _ _ =>
      [("projectKey", to_json project_key); ("name", to_json name)]
  | Call_create_status project_key name status_type _ _ =>
      [("projectKey", to_json project_key); ("name", to_json name);
       ("type", to_json status_type)]
  | Call_create_environment project_key name _ =>
      [("projectKey", to_json project_key); ("name", to_json name)]
  | _ => []
  end.

(** The fixed sentence a tool answers a success with, [None] for the tools
    that answer with the JSON text of the outcome. *)
Definition confirmation (c : tool_call) : option string :=
  match c with
  | Call_update_test_case _ _ => Some "Test case updated successfully"
  | Call_update_test_cycle _ _ => Some "Test cycle updated successfully"
  | Call_update_test_execution _ _ => Some "Test execution updated successfully"
  | Call_update_priority _ _ => Some "Priority updated successfully"
  | Call_update_status _ _ => Some "Status updated successfully"
  | Call_update_environment _ _ => Some "Environment updated successfully"
  | Call_delete_link _ => Some "Link deleted successfully"
  | Call_health_check => Some "API is healthy"
  | _ => None
  end.

Definition is_get_test_cases (c : tool_call) : bool :=
  match c with Call_get_test_cases _ _ _ _ => true | _ => false end.

(** The name each tool is registered under: the name of its function. *)
Definition tool_name (c : tool_call) : string :=
  match c with
  | Call_get_test_cases _ _ _ _ => "get_test_cases"
  | Call_get_test_case _ => "get_test_case"
  | Call_create_test_case _ _ _ _ _ _ _ _ _ _ _ => "create_test_case"
  | Call_update_test_case _ _ => "update_test_case"
  | Call_get_test_case_links _ => "get_test_case_links"
  | Call_create_test_case_issue_link _ _ => "create_test_case_issue_link"
  | Call_create_test_case_web_link _ _ _ => "create_test_case_web_link"
  | Call_get_test_case_versions _ _ _ => "get_test_case_versions"
  | Call_get_test_case_version _ _ => "get_test_case_version"
  | Call_get_test_case_script _ => "get_test_case_script"
  | Call_create_test_case_script _ _ _ => "create_test_case_script"
  | Call_get_test_case_steps _ _ _ => "get_test_case_steps"
  | Call_create_test_case_steps _ _ => "create_test_case_steps"
  | Call_get_folders _ _ _ _ => "get_folders"
  | Call_get_folder _ => "get_folder"
  | Call_create_folder _ _ _ _ => "create_folder"
  | Call_get_test_cycles _ _ _ _ _ => "get_test_cycles"
  | Call_get_test_cycle _ => "get_test_cycle"
  | Call_create_test_cycle _ _ _ _ _ _ _ _ _ => "create_test_cycle"
  | Call_update_test_cycle _ _ => "update_test_cycle"
  | Call_get_test_executions _ _ _ _ _ _ _ _ _ _ => "get_test_executions"
  | Call_get_test_execution _ _ => "get_test_execution"
  | Call_create_test_execution _ _ _ _ _ _ _ _ _ _ => "create_test_execution"
  | Call_update_test_execution _ _ => "update_test_execution"
  | Call_get_projects _ _ => "get_projects"
  | Call_get_project _ => "get_project"
  | Call_get_priorities _ _ _ => "get_priorities"
  | Call_get_priority _ => "get_priority"
  | Call_create_priority _ _ _ _ => "create_priority"
  | Call_update_priority _ _ => "update_priority"
  | Call_get_statuses _ _ _ _ => "get_statuses"
  | Call_get_status _ => "get_status"
  | Call_create_status _ _ _ _ _ => "create_status"
  | Call_update_status _ _ => "update_status"
  | Call_get_environments _ _ _ => "get_environments"
  | Call_get_environment _ => "get_environment"
  | Call_create_environment _ _ _ => "create_environment"
  | Call_update_environment _ _ => "update_environment"
  | Call_delete_link _ => "delete_link"
  | Call_get_issue_link_test_cases _ => "get_issue_link_test_cases"
  | Call_get_issue_link_test_cycles _ => "get_issue_link_test_cycles"
  | Call_get_issue_link_test_plans _ => "get_issue_link_test_plans"
  | Call_get_issue_link_test_executions _ => "get_issue_link_test_executions"
  | Call_health_check => "health_check"
  | Call_get_api_info => "get_api_info"
  end.

(** The names listed under ["available_endpoints"] of an info dict, group
    after group. *)
Definition advertised (info : dict) : list json :=
  match dict_get info "available_endpoints" with
  | Some (JObj groups) =>
      List.concat (map (fun g => match snd g with JList l => l | _ => [] end) groups)
  | _ => []
  end.

(** The keys of a curated listing entry. *)
Definition curated_keys : list string :=
  ["id"; "key"; "name"; "priority"; "status"; "objective"; "precondition";
   "estimatedTime"; "createdOn"; "folder"; "owner"].

(** An outcome that is neither a dict, a list nor a string. *)
Definition is_scalar (v : json) : bool :=
  match v with JNull | JBool _ | JInt _ => true | _ => false end.

(** Whether ["error" in v] holds for an outcome that is a container: a key
    of a dict, an element of a list, a part of a string. *)
Definition mentions_error (v : json) : bool :=
  match v with
  | JObj d => dict_mem d "error"
  | JList l => existsb (is_str "error") l
  | JStr s => is_substring "error" s
  | _ => false
  end.

(** *** More concrete surroundings *)

(** The JSON array an issue-link endpoint answers with. *)
Definition linked_cases : json :=
  JList [JObj [("key", JStr "SM-T1"); ("version", JInt 1)]].

(** A JSON array that holds the text [error]. *)
Definition error_list : json := JList [JStr "warning"; JStr "error"].

Definition ok_value (v : json) : response := mk_response 200 (body_of v).

(** A 200 response whose body is no JSON. *)
Definition garbled : response := mk_response 200 "<html>".

(** A 200 response whose body is the JSON text [null]. *)
Definition null_body : response := mk_response 200 "null".

(** A listing whose only test case has a number as priority. *)
Definition number_priority_case : dict :=
  [("values", JList [JObj [("key", JStr "SM-T1"); ("priority", JInt 3)]])].

(** A listing whose ["values"] is null. *)
Definition null_values : dict := [("values", JNull); ("total", JInt 0)].

(** A listing whose ["values"] is a text. *)
Definition text_values : dict := [("values", JStr "none")].

(** An outcome of an update. *)
Definition updated : dict := [("id", JInt 7); ("key", JStr "SM-T1")].

(** An environment with a token and a capitalised region flag. *)
Definition eu_environ : environ :=
  fun name =>
    if String.eqb name "ZEPHYR_API_TOKEN" then Some "secret"
    else if String.eqb name "ZEPHYR_USE_EU_REGION" then Some "True"
    else None.

(** ** The request executor *)

Lemma request_for_supported method url data params :
  is_supported method = true <->
  exists r, request_for method url data params = Some r.
Proof.
  unfold is_supported, request_for.
  destruct (String.eqb (upper method) "GET");
    [ split; [ eauto | reflexivity ] | ].
  destruct (String.eqb (upper method) "POST");
    [ split; [ eauto | reflexivity ] | ].
  destruct (String.eqb (upper method) "PUT");
    [ split; [ eauto | reflexivity ] | ].
  destruct (String.eqb (upper method) "DELETE");
    [ split; [ eauto | reflexivity ] | ].
  split; [ discriminate | intros [r Hr]; discriminate ].
Qed.

Lemma request_for_fields method url data params r :
  request_for method url data params = Some r ->
  req_url r = url /\ req_headers r = fixed_headers /\
  req_params r = params /\ req_timeout r = 30.
Proof.
  unfold request_for.
  repeat match goal with
         | |- context [if ?b then _ else _] => destruct b
         end;
    intros H; inversion H; subst; cbn; auto.
Qed.

(** What a call of the executor does, when the method is supported. *)
Lemma executor_run method url data params r w :
  request_for method url data params = Some r ->
  make_zephyr_request method url data params w =
    (inr (fst (classify (transport r))),
     {| calls := calls w ++ [r];
        logged := logged w ++ snd (classify (transport r)) |}).
Proof.
  unfold request_for, make_zephyr_request, try_except, bind,
    client_get, client_post, client_put, client_delete, send.
  repeat match goal with
         | |- context [if String.eqb (upper method) ?s then _ else _] =>
             destruct (String.eqb (upper method) s)
         end;
    intros H; inversion H; subst; clear H;
    (destruct (transport _) as [[r0 | cls msg] | resp]; cbn;
     [ reflexivity | reflexivity | ]);
    unfold raise_for_status, response_json;
    destruct (is_success resp); cbn; try reflexivity;
    (destruct ((status_code resp =? 204) || negb (has_content resp)); cbn;
     [ | destruct (json_loads (content resp)); cbn ]);
    rewrite ?app_nil_r; reflexivity.
Qed.

Lemma executor_unsupported method url data params w :
  request_for method url data params = None ->
  make_zephyr_request method url data params w =
    (inr (failure_record ("Unsupported HTTP method: " ++ method)),
     {| calls := calls w;
        logged := logged w
                  ++ ["Request failed: Unsupported HTTP method: " ++ method] |}).
Proof.
  unfold request_for, make_zephyr_request, try_except, bind.
  repeat match goal with
         | |- context [if String.eqb (upper method) ?s then _ else _] =>
             destruct (String.eqb (upper method) s)
         end;
    intros H; try discriminate H.
  reflexivity.
Qed.

(** The executor always returns an outcome: no exception leaves it. *)
Lemma executor_total method url data params w :
  exists outcome w',
    make_zephyr_request method url data params w = (inr outcome, w').
Proof.
  destruct (request_for method url data params) as [r | ] eqn:Hr.
  - rewrite (executor_run _ _ _ _ _ _ Hr). eauto.
  - rewrite (executor_unsupported _ _ _ _ _ Hr). eauto.
Qed.

(** C1. When the transport answers the executor's request with a response
    whose status lies outside 200..299, [make_zephyr_request] returns (it
    does not raise) the record whose ["error"] is the text
    [HTTP <status>: <response text>] and whose ["status_code"] is that
    status, after exactly that one transport call. *)
Theorem non_2xx_yields_error_record method url data params r resp w :
  request_for method url data params = Some r ->
  transport r = inr resp ->
  is_success resp = false ->
  make_zephyr_request method url data params w =
    (inr (JObj [("error",
                 JStr ("HTTP " ++ str_of_Z (status_code resp) ++ ": " ++ text resp));
                ("status_code", JInt (status_code resp))]),
     {| calls := calls w ++ [r];
        logged := logged w
                  ++ ["API error: HTTP " ++ str_of_Z (status_code resp)
                        ++ ": " ++ text resp] |}).
Proof.
  intros Hr Ht Hs.
  rewrite (executor_run _ _ _ _ _ _ Hr), Ht.
  unfold classify. rewrite Hs. reflexivity.
Qed.

(** C2, as amended. When the transport answers with status 204, or with a
    2xx status and a zero-length body, [make_zephyr_request] returns the
    marker [{"success": true}] whatever the method, the decoder is not
    consulted and nothing is logged. *)
Theorem empty_success_yields_marker method url data params r resp w :
  request_for method url data params = Some r ->
  transport r = inr resp ->
  status_code resp = 204 \/
    (is_success resp = true /\ content resp = EmptyString) ->
  make_zephyr_request method url data params w =
    (inr (JObj [("success", JBool true)]),
     {| calls := calls w ++ [r]; logged := logged w |}).
Proof.
  intros Hr Ht Hcase.
  rewrite (executor_run _ _ _ _ _ _ Hr), Ht.
  unfold classify, has_content.
  destruct Hcase as [H204 | [Hs He]].
  - unfold is_success. rewrite H204. cbn. rewrite app_nil_r. reflexivity.
  - rewrite Hs, He. rewrite orb_true_r. cbn. rewrite app_nil_r. reflexivity.
Qed.

(** C6. A method string whose upper-casing is none of GET, POST, PUT and
    DELETE makes [make_zephyr_request] return the uniform error record
    without any transport invocation: the trace of calls is unchanged. *)
Theorem unsupported_method_fails_fast method url data params w :
  is_supported method = false ->
  make_zephyr_request method url data params w =
    (inr (JObj [("error",
                 JStr ("Request failed: Unsupported HTTP method: " ++ method))]),
     {| calls := calls w;
        logged := logged w
                  ++ ["Request failed: Unsupported HTTP method: " ++ method] |}).
Proof.
  intros Hm.
  destruct (request_for method url data params) as [r | ] eqn:Hr.
  - assert (is_supported method = true) as Hs
      by (apply (request_for_supported method url data params); eauto).
    congruence.
  - apply executor_unsupported, Hr.
Qed.

(** C7. For a supported method the executor invokes the transport exactly
    once, with the bearer-token [Authorization] header and the JSON
    [Content-Type] header, the timeout 30, and the url and query it was
    given. *)
Theorem supported_method_one_call method url data params w :
  is_supported method = true ->
  exists r : request,
    calls (snd (make_zephyr_request method url data params w))
      = (calls w ++ [r])%list
    /\ req_headers r = [("Authorization", "Bearer " ++ API_TOKEN);
                        ("Content-Type", "application/json")]
    /\ req_timeout r = 30
    /\ req_url r = url
    /\ req_params r = params.
Proof.
  intros Hm.
  apply (request_for_supported method url data params) in Hm.
  destruct Hm as [r Hr].
  exists r. rewrite (executor_run _ _ _ _ _ _ Hr). cbn.
  destruct (request_for_fields _ _ _ _ _ Hr) as (Hu & Hh & Hp & Ht).
  repeat split; assumption.
Qed.

(** ** Dictionaries *)

Lemma dict_get_set d k' v k :
  dict_get (dict_set d k' v) k =
    if String.eqb k' k then Some v else dict_get d k.
Proof.
  induction d as [ | [a x] d IH]; cbn.
  - reflexivity.
  - destruct (String.eqb a k') eqn:Hak; cbn.
    + apply String.eqb_eq in Hak. rewrite Hak.
      destruct (String.eqb k' k); reflexivity.
    + rewrite IH.
      destruct (String.eqb a k) eqn:Ha, (String.eqb k' k) eqn:Hk;
        try reflexivity.
      apply String.eqb_eq in Ha, Hk. subst.
      rewrite String.eqb_refl in Hak. discriminate.
Qed.

Lemma dict_get_set_if {A} `{PyValue A} (x : A) k' d k :
  dict_get (set_if x k' d) k =
    if String.eqb k' k
    then (if truthy (to_json x) then Some (to_json x) else dict_get d k)
    else dict_get d k.
Proof.
  unfold set_if.
  destruct (truthy (to_json x)).
  - apply dict_get_set.
  - destruct (String.eqb k' k); reflexivity.
Qed.

(** ** Computations that stay off the network *)

Create HintDb no_io.

Lemma no_io_ret {A} (a : A) : no_io (ret a).
Proof. intros w. reflexivity. Qed.

Lemma no_io_raise {A} (e : exn) : no_io (@raise A e).
Proof. intros w. reflexivity. Qed.

Lemma no_io_bind {A B} (m : M A) (k : A -> M B) :
  no_io m -> (forall a, no_io (k a)) -> no_io (bind m k).
Proof.
  intros Hm Hk w. unfold bind.
  specialize (Hm w).
  destruct (m w) as [[e | a] w']; cbn in *.
  - assumption.
  - rewrite (Hk a w'). assumption.
Qed.

Lemma no_io_if {A} (b : bool) (m1 m2 : M A) :
  no_io m1 -> no_io m2 -> no_io (if b then m1 else m2).
Proof. destruct b; auto. Qed.

Lemma no_io_py_in k v : no_io (py_in k v).
Proof. destruct v; intros w; reflexivity. Qed.

Lemma no_io_py_getitem v k : no_io (py_getitem v k).
Proof.
  destruct v; intros w; try reflexivity.
  cbn. destruct (dict_get d k); reflexivity.
Qed.

Lemma no_io_py_get v k dflt : no_io (py_get v k dflt).
Proof. destruct v; intros w; reflexivity. Qed.

Lemma no_io_py_iter v : no_io (py_iter v).
Proof. destruct v; intros w; reflexivity. Qed.

#[local] Hint Resolve no_io_ret no_io_raise no_io_py_in no_io_py_getitem
  no_io_py_get no_io_py_iter : no_io.
#[local] Hint Extern 2 (no_io (bind _ _)) =>
  apply no_io_bind; [ | intros ? ] : no_io.
#[local] Hint Extern 2 (no_io (if _ then _ else _)) => apply no_io_if : no_io.

Lemma no_io_for_each {A B} (f : A -> M B) l :
  (forall a, no_io (f a)) -> no_io (for_each f l).
Proof.
  intros Hf. induction l as [ | x l IH]; cbn; auto with no_io.
Qed.

Lemma no_io_project_test_case tc : no_io (project_test_case tc).
Proof. unfold project_test_case. auto 40 with no_io. Qed.

Lemma no_io_echo data : no_io (echo data).
Proof. apply no_io_ret. Qed.

Lemma no_io_unless_error data rest :
  no_io rest -> no_io (unless_error data rest).
Proof. intros Hr. unfold unless_error. auto with no_io. Qed.

#[local] Hint Resolve no_io_for_each no_io_project_test_case no_io_echo
  no_io_unless_error : no_io.

(** ** Tools around the executor *)

Lemma calls_after_request {A} method url data params r (k : json -> M A) w :
  request_for method url data params = Some r ->
  (forall d, no_io (k d)) ->
  calls (snd (bind (make_zephyr_request method url data params) k w))
    = (calls w ++ [r])%list.
Proof.
  intros Hr Hk. unfold bind.
  rewrite (executor_run _ _ _ _ _ _ Hr).
  rewrite (Hk _ _). reflexivity.
Qed.

Lemma upstream_outcome v method url data params w :
  upstream_succeeds_with v ->
  is_supported method = true ->
  exists r,
    make_zephyr_request method url data params w =
      (inr v, {| calls := calls w ++ [r]; logged := logged w |}).
Proof.
  intros (resp & Ht & Hs & Hcase) Hm.
  apply (request_for_supported method url data params) in Hm.
  destruct Hm as [r Hr]. exists r.
  rewrite (executor_run _ _ _ _ _ _ Hr), Ht.
  unfold classify, has_content. rewrite Hs.
  destruct Hcase as [[[H204 | He] Hv] | (H204 & He & Hj)]; subst.
  - rewrite H204. cbn. rewrite app_nil_r. reflexivity.
  - rewrite He, orb_true_r. cbn. rewrite app_nil_r. reflexivity.
  - apply Z.eqb_neq in H204. rewrite H204.
    apply String.eqb_neq in He. rewrite He, Hj.
    cbn. rewrite app_nil_r. reflexivity.
Qed.

Lemma tool_on_upstream {A} v method url data params (k : json -> M A) w :
  upstream_succeeds_with v ->
  is_supported method = true ->
  exists w',
    bind (make_zephyr_request method url data params) k w = k v w'.
Proof.
  intros Hup Hm.
  destruct (upstream_outcome v method url data params w Hup Hm) as [r Hr].
  unfold bind. rewrite Hr. eauto.
Qed.

Lemma unless_error_dict d rest w :
  unless_error (JObj d) rest w =
    match dict_get d "error" with
    | Some v => (inr ("Error: " ++ py_str v), w)
    | None => rest w
    end.
Proof.
  unfold unless_error, bind, py_in, py_getitem, dict_mem, ret.
  destruct (dict_get d "error"); reflexivity.
Qed.

Lemma with_payload_invalid s msg rest m w :
  json_loads s = inl m ->
  with_payload s msg rest w = (inr msg, w).
Proof.
  intros Hs. unfold with_payload, bind, try_except, loads, raise, ret.
  rewrite Hs. reflexivity.
Qed.

Lemma with_payload_decoded s msg rest payload w :
  json_loads s = inr payload ->
  with_payload s msg rest w = rest payload w.
Proof.
  intros Hs. unfold with_payload, bind, try_except, loads, raise, ret.
  rewrite Hs. reflexivity.
Qed.

Ltac unfold_tool :=
  unfold run_tool, get_test_cases, get_test_case, create_test_case,
    update_test_case, get_test_case_links, create_test_case_issue_link,
    create_test_case_web_link, get_test_case_versions, get_test_case_version,
    get_test_case_script, create_test_case_script, get_test_case_steps,
    create_test_case_steps, get_folders, get_folder, create_folder,
    get_test_cycles, get_test_cycle, create_test_cycle, update_test_cycle,
    get_test_executions, get_test_execution, create_test_execution,
    update_test_execution, get_projects, get_project, get_priorities,
    get_priority, create_priority, update_priority, get_statuses, get_status,
    create_status, update_status, get_environments, get_environment,
    create_environment, update_environment, delete_link,
    get_issue_link_test_cases, get_issue_link_test_cycles,
    get_issue_link_test_plans, get_issue_link_test_executions, health_check.

(** C5. When the JSON text passed for the raw-payload parameter of a tool
    does not decode, the tool returns the fixed text
    [Error: Invalid JSON format for <parameter name>] and leaves the world
    as it was: the transport is not invoked and nothing is logged. *)
Theorem malformed_payload_fails_locally c name s m w :
  raw_payload c = Some (name, s) ->
  json_loads s = inl m ->
  run_tool c w = (inr ("Error: Invalid JSON format for " ++ name), w).
Proof.
  intros Hc Hs.
  destruct c; try discriminate Hc; cbn in Hc; inversion Hc; subst;
    unfold_tool; apply (with_payload_invalid _ _ _ m); assumption.
Qed.

(** ** What the tools send *)

Lemma calls_after_GET {A} url data params (k : json -> M A) w :
  (forall d, no_io (k d)) ->
  calls (snd (bind (make_zephyr_request "GET" url data params) k w))
    = (calls w ++ [mk_request GET url fixed_headers None params 30])%list.
Proof. apply calls_after_request. reflexivity. Qed.

Lemma calls_after_POST {A} url data params (k : json -> M A) w :
  (forall d, no_io (k d)) ->
  calls (snd (bind (make_zephyr_request "POST" url data params) k w))
    = (calls w ++ [mk_request POST url fixed_headers data params 30])%list.
Proof. apply calls_after_request. reflexivity. Qed.

Ltac one_request :=
  unfold_tool;
  first [ apply calls_after_GET | apply calls_after_POST ];
  intros ?; auto 40 with no_io.

Ltac sent_field :=
  cbn [outgoing fields_of req_json req_params app];
  rewrite ?app_nil_r, ?dict_get_set_if;
  cbn [dict_of fold_left fst snd dict_set dict_get String.eqb Ascii.eqb
       Bool.eqb];
  repeat match goal with
         | |- context [truthy ?x] => destruct (truthy x)
         end;
  reflexivity.

(** C3, as amended. For every tool: a parameter declared [Optional[...]]
    with default [None] is left out of the outgoing body or query when its
    value is falsy and is sent under its upstream field name when its value
    is truthy; a parameter with another default (the offset [start_at], the
    flags [only_last_executions] and [include_step_links]) is sent under
    its field name whatever its value, 0 and false included. *)
Theorem optional_args_sent_iff_truthy c w :
  (forall k v, In (k, v) (optional_args c) ->
     exists r : request,
       calls (snd (run_tool c w)) = (calls w ++ [r])%list /\
       dict_get (outgoing r) k = if truthy v then Some v else None)
  /\
  (forall k v, In (k, v) (defaulted_args c) ->
     exists r : request,
       calls (snd (run_tool c w)) = (calls w ++ [r])%list /\
       dict_get (outgoing r) k = Some v).
Proof.
  split; intros k v Hin.
  - destruct c; cbn [optional_args In] in Hin;
      repeat (destruct Hin as [Hin | Hin];
              [ inversion Hin; subst; clear Hin | ]);
      try contradiction;
      (eexists; split; [ one_request | sent_field ]).
  - destruct c; cbn [defaulted_args In] in Hin;
      repeat (destruct Hin as [Hin | Hin];
              [ inversion Hin; subst; clear Hin | ]);
      try contradiction;
      (eexists; split; [ one_request | sent_field ]).
Qed.

(** C4, as amended. A [max_results] above 1000 is sent as [maxResults]
    1000 by every listing tool whose docstring names that maximum
    (get_test_cases, get_folders, get_test_cycles, get_test_executions,
    get_projects, get_priorities, get_statuses, get_environments);
    get_test_case_versions and get_test_case_steps send it as it is. *)
Theorem max_results_clamped c m w :
  max_results_arg c = Some m ->
  1000 < m ->
  exists r : request,
    calls (snd (run_tool c w)) = (calls w ++ [r])%list /\
    dict_get (outgoing r) "maxResults" =
      Some (JInt (if forwards_max_results c then m else 1000)).
Proof.
  intros Hc Hm.
  destruct c; try discriminate Hc; cbn in Hc; inversion Hc; subst;
    cbn [forwards_max_results];
    (eexists; split;
     [ one_request
     | cbn [outgoing fields_of req_json req_params app];
       rewrite ?dict_get_set_if;
       cbn [dict_of fold_left fst snd dict_set dict_get String.eqb Ascii.eqb
            Bool.eqb to_json PyValue_Z];
       try rewrite Z.min_r by lia; reflexivity ]).
Qed.

(** ** The curated listing of test cases *)

Lemma bind_run {A B} (m : M A) (k : A -> M B) a w w' :
  m w = (inr a, w') -> bind m k w = k a w'.
Proof. intros H. unfold bind. rewrite H. reflexivity. Qed.

Lemma bind_raise {A B} (m : M A) (k : A -> M B) e w w' :
  m w = (inl e, w') -> bind m k w = (inl e, w').
Proof. intros H. unfold bind. rewrite H. reflexivity. Qed.

Lemma py_get_dict t k dflt w :
  py_get (JObj t) k dflt w = (inr (get_or t k dflt), w).
Proof. reflexivity. Qed.

Lemma nested_plain t k sub w :
  absent_or_obj (dict_get t k) = true ->
  bind (py_get (JObj t) k (JObj [])) (fun p => py_get p sub JNull) w
    = (inr (nested t k sub), w).
Proof.
  unfold absent_or_obj, nested, bind, py_get, ret.
  destruct (dict_get t k) as [[ | | | | | o] | ];
    intros H; try discriminate H; reflexivity.
Qed.

Lemma nested_guarded t k sub w :
  falsy_or_obj (dict_get t k) = true ->
  bind (py_get (JObj t) k JNull)
    (fun f => if truthy f
              then bind (py_get (JObj t) k (JObj [])) (fun f' => py_get f' sub JNull)
              else ret JNull) w
    = (inr (nested t k sub), w).
Proof.
  unfold falsy_or_obj, nested, bind, py_get, ret.
  destruct (dict_get t k) as [v | ] eqn:Hv; [ | reflexivity ].
  destruct v as [ | b | n | s | l | o]; cbn;
    try (intros _; reflexivity).
  - destruct b; [ discriminate | reflexivity ].
  - destruct (n =? 0); [ reflexivity | discriminate ].
  - destruct (String.eqb s EmptyString); [ reflexivity | discriminate ].
  - destruct l; [ reflexivity | discriminate ].
  - intros _. destruct o; reflexivity.
Qed.

Ltac run_with tac := erewrite bind_run by tac; cbv beta.

Lemma project_projectable tc w :
  projectable tc = true ->
  project_test_case tc w = (inr (projection tc), w).
Proof.
  destruct tc as [ | | | | | t]; try discriminate.
  unfold projectable. intros H.
  apply andb_prop in H. destruct H as [H Ho].
  apply andb_prop in H. destruct H as [H Hf].
  apply andb_prop in H. destruct H as [Hp Hs].
  unfold project_test_case.
  repeat run_with ltac:(first [ apply py_get_dict
                              | apply nested_plain; assumption
                              | apply nested_guarded; assumption ]).
  reflexivity.
Qed.

Lemma attr_only_ret {A} (a : A) : attr_only (ret a).
Proof. intros w. left. exists a. reflexivity. Qed.

Lemma attr_only_py_get v k dflt : attr_only (py_get v k dflt).
Proof.
  intros w. destruct v; cbn; unfold ret, raise;
    first [ left; eexists; reflexivity | right; eexists; reflexivity ].
Qed.

Lemma attr_only_bind {A B} (m : M A) (k : A -> M B) :
  attr_only m -> (forall a, attr_only (k a)) -> attr_only (bind m k).
Proof.
  intros Hm Hk w. unfold bind.
  destruct (Hm w) as [[a Ha] | [msg Hmsg]].
  - rewrite Ha. apply Hk.
  - rewrite Hmsg. right. eauto.
Qed.

Lemma attr_only_if {A} (b : bool) (m1 m2 : M A) :
  attr_only m1 -> attr_only m2 -> attr_only (if b then m1 else m2).
Proof. destruct b; auto. Qed.

Create HintDb attr_only.
#[local] Hint Resolve attr_only_ret attr_only_py_get : attr_only.
#[local] Hint Extern 2 (attr_only (bind _ _)) =>
  apply attr_only_bind; [ | intros ? ] : attr_only.
#[local] Hint Extern 2 (attr_only (if _ then _ else _)) =>
  apply attr_only_if : attr_only.

Lemma attr_only_project tc : attr_only (project_test_case tc).
Proof. unfold project_test_case. auto 40 with attr_only. Qed.

Lemma attr_only_for_each {A B} (f : A -> M B) l :
  (forall a, attr_only (f a)) -> attr_only (for_each f l).
Proof.
  intros Hf. induction l as [ | x l IH]; cbn; auto with attr_only.
Qed.

(** A test case with an explicit null [priority] or [status] is not
    projected: the chained [.get] is applied to [None]. *)
Lemma project_null_raises tc w :
  has_null_priority_or_status tc = true ->
  exists msg, project_test_case tc w = (inl (Raised AttributeError msg), w).
Proof.
  destruct tc as [ | | | | | t]; try discriminate.
  unfold has_null_priority_or_status. intros H.
  unfold project_test_case.
  do 3 run_with ltac:(apply py_get_dict).
  assert (Hp : attr_only (bind (py_get (JObj t) "priority" (JObj []))
                            (fun p => py_get p "id" JNull)))
    by auto with attr_only.
  destruct (Hp w) as [[a Ha] | [msg Hmsg]].
  - run_with ltac:(apply Ha).
    assert (Hs : dict_get t "status" = Some JNull).
    { destruct (dict_get t "priority") as [[ | | | | | ] | ] eqn:Hpr;
        try (destruct (dict_get t "status") as [[ | | | | | ] | ];
             (reflexivity || discriminate H)).
      unfold bind, py_get in Ha. rewrite Hpr in Ha. discriminate Ha. }
    eexists. apply bind_raise.
    unfold bind, py_get. rewrite Hs. reflexivity.
  - exists msg. apply bind_raise. exact Hmsg.
Qed.

Lemma for_each_projectable tcs w :
  forallb projectable tcs = true ->
  for_each project_test_case tcs w = (inr (map projection tcs), w).
Proof.
  induction tcs as [ | tc tcs IH]; cbn [forallb for_each map]; intros H.
  - reflexivity.
  - apply andb_prop in H. destruct H as [Htc Htcs].
    run_with ltac:(apply project_projectable; exact Htc).
    run_with ltac:(apply IH; exact Htcs).
    reflexivity.
Qed.

Lemma for_each_null_raises tcs tc w :
  In tc tcs ->
  has_null_priority_or_status tc = true ->
  exists msg,
    for_each project_test_case tcs w = (inl (Raised AttributeError msg), w).
Proof.
  intros Hin Hnull.
  induction tcs as [ | x tcs IH]; [ contradiction | ].
  cbn [for_each].
  destruct Hin as [-> | Hin].
  - destruct (project_null_raises tc w Hnull) as [msg Hmsg].
    exists msg. apply bind_raise. exact Hmsg.
  - destruct (attr_only_project x w) as [[a Ha] | [msg Hmsg]].
    + run_with ltac:(apply Ha).
      destruct (IH Hin) as [msg Hmsg].
      exists msg. apply bind_raise. exact Hmsg.
    + exists msg. apply bind_raise. exact Hmsg.
Qed.

Ltac enter_tool Hup :=
  unfold_tool;
  match goal with
  | |- context [bind (make_zephyr_request ?m ?u ?dt ?p) ?k ?w] =>
      let w' := fresh "w'" in
      let Hw' := fresh "Hw'" in
      destruct (tool_on_upstream _ m u dt p k w Hup eq_refl) as [w' Hw'];
      rewrite Hw'; clear Hw'
  end;
  rewrite unless_error_dict.

(** C8, as amended. On a successful upstream outcome without an ["error"]
    key, [get_test_cases] returns the text [No test cases found.] when
    ["values"] is absent or the empty list; when ["values"] is a non-empty
    list of projectable test cases it returns the 2-space-indented JSON
    text of their projections together with the pagination block that
    passes [startAt], [maxResults], [total] and [isLast] through. *)
Theorem get_test_cases_listing project_key folder_id max_results start_at d w :
  upstream_succeeds_with (JObj d) ->
  dict_get d "error" = None ->
  (dict_get d "values" = None \/ dict_get d "values" = Some (JList []) ->
   fst (get_test_cases project_key folder_id max_results start_at w)
     = inr "No test cases found.")
  /\
  (forall tcs,
     dict_get d "values" = Some (JList tcs) ->
     tcs <> [] ->
     forallb projectable tcs = true ->
     fst (get_test_cases project_key folder_id max_results start_at w)
       = inr (json_dumps_indent2 (listing d tcs))).
Proof.
  intros Hup Herr. split.
  - intros Hv. enter_tool Hup. rewrite Herr.
    run_with ltac:(apply py_get_dict).
    unfold get_or. destruct Hv as [-> | ->]; reflexivity.
  - intros tcs Hv Hne Hok. enter_tool Hup. rewrite Herr.
    run_with ltac:(apply py_get_dict).
    replace (get_or d "values" (JList [])) with (JList tcs)
      by (unfold get_or; rewrite Hv; reflexivity).
    destruct tcs as [ | tc tcs]; [ contradiction | ].
    cbn [truthy negb].
    run_with ltac:(reflexivity).
    run_with ltac:(apply for_each_projectable; exact Hok).
    do 4 run_with ltac:(apply py_get_dict).
    reflexivity.
Qed.

(** C10. On a successful upstream outcome whose ["values"] list holds a
    test case with an explicit null ["priority"] or ["status"],
    [get_test_cases] raises [AttributeError] instead of returning; a single
    test case whose ["folder"] and ["owner"] are null, and whose
    ["priority"] and ["status"] are absent or objects, is listed. *)
Theorem null_priority_or_status_raises
    project_key folder_id max_results start_at d tcs w :
  upstream_succeeds_with (JObj d) ->
  dict_get d "error" = None ->
  dict_get d "values" = Some (JList tcs) ->
  (forall tc,
     In tc tcs ->
     has_null_priority_or_status tc = true ->
     exists msg,
       fst (get_test_cases project_key folder_id max_results start_at w)
         = inl (Raised AttributeError msg))
  /\
  (forall t,
     tcs = [JObj t] ->
     dict_get t "folder" = Some JNull ->
     dict_get t "owner" = Some JNull ->
     absent_or_obj (dict_get t "priority") = true ->
     absent_or_obj (dict_get t "status") = true ->
     fst (get_test_cases project_key folder_id max_results start_at w)
       = inr (json_dumps_indent2 (listing d tcs))).
Proof.
  intros Hup Herr Hv. split.
  - intros tc Hin Hnull. enter_tool Hup. rewrite Herr.
    run_with ltac:(apply py_get_dict).
    replace (get_or d "values" (JList [])) with (JList tcs)
      by (unfold get_or; rewrite Hv; reflexivity).
    destruct tcs as [ | x tcs]; [ contradiction | ].
    cbn [truthy negb].
    run_with ltac:(reflexivity).
    destruct (for_each_null_raises (x :: tcs) tc w' Hin Hnull) as [msg Hmsg].
    exists msg. erewrite bind_raise by exact Hmsg. reflexivity.
  - intros t -> Hf Ho Hp Hs. enter_tool Hup. rewrite Herr.
    run_with ltac:(apply py_get_dict).
    replace (get_or d "values" (JList [])) with (JList [JObj t])
      by (unfold get_or; rewrite Hv; reflexivity).
    cbn [truthy negb].
    run_with ltac:(reflexivity).
    run_with ltac:(apply for_each_projectable; cbn [forallb projectable];
                   rewrite Hf, Ho, Hp, Hs; reflexivity).
    do 4 run_with ltac:(apply py_get_dict).
    reflexivity.
Qed.

(** ** The error test of the tools *)

Lemma dumps_obj_not_error d :
  prefix "Error: " (json_dumps_indent2 (JObj d)) = false.
Proof. destruct d as [ | [k v] d]; reflexivity. Qed.

Lemma decoded_payload c :
  payload_decodes c = true ->
  forall name s, raw_payload c = Some (name, s) ->
  exists payload, json_loads s = inr payload.
Proof.
  unfold payload_decodes. intros H name s Hc. rewrite Hc in H.
  destruct (json_loads s) as [m | payload]; [ discriminate | eauto ].
Qed.

Ltac enter_payload Hdec :=
  unfold_tool;
  match goal with
  | |- context [with_payload ?s ?msg ?rest ?w] =>
      let payload := fresh "payload" in
      let Hp := fresh "Hp" in
      destruct (decoded_payload _ Hdec _ s eq_refl) as [payload Hp];
      rewrite (with_payload_decoded s msg rest payload w Hp)
  end.

(** C9. For every tool that calls the executor, on a successful upstream
    outcome that is a dictionary [d]: when [d] has the key ["error"] the
    tool returns [Error: ] followed by the text of its value, although the
    upstream status was 2xx; when [d] has no such key, whatever the tool
    returns does not start with [Error: ]. *)
Theorem error_key_decides c d w :
  upstream_succeeds_with (JObj d) ->
  calls_executor c = true ->
  payload_decodes c = true ->
  (forall v, dict_get d "error" = Some v ->
     fst (run_tool c w) = inr ("Error: " ++ py_str v))
  /\
  (dict_get d "error" = None ->
   forall s, fst (run_tool c w) = inr s -> prefix "Error: " s = false).
Proof.
  intros Hup Hc Hdec. split.
  - intros v Hv.
    destruct c; try discriminate Hc; try enter_payload Hdec;
      enter_tool Hup; rewrite Hv; reflexivity.
  - intros Herr s.
    destruct c; try discriminate Hc; try enter_payload Hdec;
      enter_tool Hup; rewrite Herr;
      try (unfold echo, ret; cbn [fst]; intros Hs; inversion Hs;
           first [ apply dumps_obj_not_error | reflexivity ]).
    unfold bind.
    cbn [py_get ret].
    destruct (negb (truthy _)).
    + cbn. intros Hs. inversion Hs. reflexivity.
    + destruct (py_iter _ _) as [[e | items] w1]; [ discriminate | ].
      destruct (for_each _ _ _) as [[e | result] w2]; [ discriminate | ].
      cbn. intros Hs. inversion Hs. reflexivity.
Qed.


(** ** More on the request executor *)

(** X1. When the transport raises instead of answering (connection
    failure, timeout), the executor returns the record whose only key is
    ["error"], with the text [Request failed: <str(e)>]; there is no
    ["status_code"], the transport was invoked once and the text is logged. *)
Theorem transport_failure_yields_message method url data params r cls msg w :
  request_for method url data params = Some r ->
  transport r = inl (Raised cls msg) ->
  make_zephyr_request method url data params w =
    (inr (JObj [("error", JStr ("Request failed: " ++ str_exn cls msg))]),
     {| calls := calls w ++ [r];
        logged := logged w ++ ["Request failed: " ++ str_exn cls msg] |}).
Proof.
  intros Hr Ht.
  rewrite (executor_run _ _ _ _ _ _ Hr), Ht. reflexivity.
Qed.

(** X2. A 2xx response other than 204 whose non-empty body does not decode
    as JSON is reported as a failure: the executor returns the record with
    the single key ["error"] and the text [Request failed: <decoder
    message>], and logs that text. *)
Theorem undecodable_body_yields_message method url data params r resp msg w :
  request_for method url data params = Some r ->
  transport r = inr resp ->
  is_success resp = true ->
  status_code resp <> 204 ->
  content resp <> EmptyString ->
  json_loads (content resp) = inl msg ->
  make_zephyr_request method url data params w =
    (inr (JObj [("error", JStr ("Request failed: " ++ msg))]),
     {| calls := calls w ++ [r];
        logged := logged w ++ ["Request failed: " ++ msg] |}).
Proof.
  intros Hr Ht Hs H204 He Hj.
  rewrite (executor_run _ _ _ _ _ _ Hr), Ht.
  unfold classify, has_content. rewrite Hs.
  apply Z.eqb_neq in H204. apply String.eqb_neq in He.
  rewrite H204, He, Hj. reflexivity.
Qed.

(** X3. A 2xx response other than 204 whose non-empty body decodes is
    returned as the decoded value, whatever JSON value that is, and
    nothing is logged. *)
Theorem decoded_body_returned_verbatim method url data params r resp v w :
  request_for method url data params = Some r ->
  transport r = inr resp ->
  is_success resp = true ->
  status_code resp <> 204 ->
  content resp <> EmptyString ->
  json_loads (content resp) = inr v ->
  make_zephyr_request method url data params w =
    (inr v, {| calls := calls w ++ [r]; logged := logged w |}).
Proof.
  intros Hr Ht Hs H204 He Hj.
  rewrite (executor_run _ _ _ _ _ _ Hr), Ht.
  unfold classify, has_content. rewrite Hs.
  apply Z.eqb_neq in H204. apply String.eqb_neq in He.
  rewrite H204, He, Hj. cbn. rewrite app_nil_r. reflexivity.
Qed.




Lemma request_for_upper m1 m2 url data params :
  upper m1 = upper m2 ->
  request_for m1 url data params = request_for m2 url data params.
Proof. intros H. unfold request_for. rewrite H. reflexivity. Qed.

(** X6. The method is matched without regard to case: two supported method
    strings with the same upper-casing give the same run of the executor. *)
Theorem method_case_insensitive m1 m2 url data params w :
  upper m1 = upper m2 ->
  is_supported m1 = true ->
  make_zephyr_request m1 url data params w
    = make_zephyr_request m2 url data params w.
Proof.
  intros Hu Hs.
  apply (request_for_supported m1 url data params) in Hs.
  destruct Hs as [r Hr].
  rewrite (executor_run _ _ _ _ _ _ Hr).
  rewrite (request_for_upper m1 m2 _ _ _ Hu) in Hr.
  rewrite (executor_run _ _ _ _ _ _ Hr). reflexivity.
Qed.

(** X7. The JSON body reaches the transport only with POST and PUT: with
    GET and DELETE the request carries no body, whatever [data] is. *)
Theorem body_only_with_post_and_put method url data params w :
  is_supported method = true ->
  exists r : request,
    calls (snd (make_zephyr_request method url data params w))
      = (calls w ++ [r])%list /\
    req_json r =
      if String.eqb (upper method) "POST" || String.eqb (upper method) "PUT"
      then data else None.
Proof.
  intros Hs.
  apply (request_for_supported method url data params) in Hs.
  destruct Hs as [r Hr]. exists r.
  rewrite (executor_run _ _ _ _ _ _ Hr). split; [ reflexivity | ].
  unfold request_for in Hr.
  destruct (String.eqb (upper method) "GET") eqn:Hg.
  - apply String.eqb_eq in Hg. rewrite Hg. inversion Hr. reflexivity.
  - destruct (String.eqb (upper method) "POST");
      [ inversion Hr; reflexivity | ].
    destruct (String.eqb (upper method) "PUT");
      [ inversion Hr; reflexivity | ].
    destruct (String.eqb (upper method) "DELETE");
      [ inversion Hr; reflexivity | discriminate Hr ].
Qed.

(** ** More on what the tools send *)

Lemma prefix_app s t : prefix s (s ++ t) = true.
Proof.
  induction s as [ | c s IH]; cbn.
  - destruct t; reflexivity.
  - destruct (ascii_dec c c) as [_ | Hc]; [ exact IH | contradiction ].
Qed.

Ltac decode_payload Hdec :=
  try (unfold payload_decodes in Hdec; cbn [raw_payload] in Hdec;
       match type of Hdec with
       | context [json_loads ?s] =>
           let m := fresh "m" in
           let payload := fresh "payload" in
           let Hp := fresh "Hp" in
           destruct (json_loads s) as [m | payload] eqn:Hp;
           [ discriminate Hdec | ]
       end).

Ltac use_payload :=
  try match goal with
      | Hp : json_loads _ = inr _ |- _ =>
          rewrite (with_payload_decoded _ _ _ _ _ Hp)
      end.

Ltac request_of Hdec :=
  decode_payload Hdec;
  eexists; split;
  [ unfold_tool; use_payload;
    apply calls_after_request; [ reflexivity | intros ?; auto 40 with no_io ]
  | ].

(** X8. Every tool that reaches the executor with a decodable payload
    invokes the transport exactly once; that request goes to a URL that
    starts with the configured API base, carries the two fixed headers and
    the timeout 30, and uses the verb of the tool's family (GET for the
    readers and the health check, POST for create, PUT for update, DELETE
    for delete_link), with no JSON body on a GET. *)
Theorem tool_request_shape c w :
  calls_executor c = true ->
  payload_decodes c = true ->
  exists r : request,
    calls (snd (run_tool c w)) = (calls w ++ [r])%list /\
    prefix API_BASE (req_url r) = true /\
    req_headers r = fixed_headers /\
    req_timeout r = 30 /\
    tool_verb c = Some (req_verb r) /\
    (req_verb r = GET -> req_json r = None).
Proof.
  intros Hc Hdec.
  destruct c; try discriminate Hc; request_of Hdec;
    cbn [req_headers req_timeout req_url req_verb req_json tool_verb];
    (split; [ apply prefix_app | ]);
    repeat split; try reflexivity; try discriminate.
Qed.

Ltac split_truthy :=
  repeat match goal with
         | |- context [truthy ?x] => destruct (truthy x)
         end.

(** X9. The outgoing body or query of a tool without raw payload is
    exactly the entries of its dict display followed by its
    [Optional[...]] arguments that are truthy, in the order of the source:
    no other key is sent and no optional argument is sent as null, 0 or
    empty. *)
Theorem outgoing_fields_exact c w :
  calls_executor c = true ->
  raw_payload c = None ->
  exists r : request,
    calls (snd (run_tool c w)) = (calls w ++ [r])%list /\
    outgoing r =
      (fixed_fields c
         ++ filter (fun kv => truthy (snd kv)) (optional_args c))%list.
Proof.
  intros Hc Hraw.
  assert (Hdec : payload_decodes c = true)
    by (unfold payload_decodes; rewrite Hraw; reflexivity).
  destruct c; try discriminate Hc; try discriminate Hraw; request_of Hdec;
    cbn [outgoing fields_of req_json req_params app fixed_fields optional_args
         filter snd fst];
    unfold set_if;
    split_truthy;
    reflexivity.
Qed.


(** ** What the tools answer *)

Lemma yields_of_upstream v : upstream_succeeds_with v -> executor_yields v.
Proof.
  intros Hup method url data params w Hm.
  destruct (upstream_outcome v method url data params w Hup Hm) as [r Hr].
  rewrite Hr. eauto.
Qed.

Lemma yields_http_error resp :
  (forall r, transport r = inr resp) ->
  is_success resp = false ->
  executor_yields (http_error_record resp).
Proof.
  intros Ht Hs method url data params w Hm.
  apply (request_for_supported method url data params) in Hm.
  destruct Hm as [r Hr].
  rewrite (executor_run _ _ _ _ _ _ Hr), Ht.
  unfold classify. rewrite Hs. eauto.
Qed.

Lemma yields_failure cls msg :
  (forall r, transport r = inl (Raised cls msg)) ->
  executor_yields (failure_record (str_exn cls msg)).
Proof.
  intros Ht method url data params w Hm.
  apply (request_for_supported method url data params) in Hm.
  destruct Hm as [r Hr].
  rewrite (executor_run _ _ _ _ _ _ Hr), Ht. cbn. eauto.
Qed.

Lemma tool_on_yield {A} v method url data params (k : json -> M A) w :
  executor_yields v ->
  is_supported method = true ->
  exists w',
    bind (make_zephyr_request method url data params) k w = k v w'.
Proof.
  intros Hy Hm.
  destruct (Hy method url data params w Hm) as [w' Hw'].
  unfold bind. rewrite Hw'. eauto.
Qed.

Ltac enter_yield Hy :=
  unfold_tool; use_payload;
  match goal with
  | |- context [bind (make_zephyr_request ?m ?u ?dt ?p) ?k ?w] =>
      let w' := fresh "w'" in
      let Hw' := fresh "Hw'" in
      destruct (tool_on_yield _ m u dt p k w Hy eq_refl) as [w' Hw'];
      rewrite Hw'; clear Hw'
  end.

(** Every tool turns an outcome with an ["error"] key into the text
    [Error: <value>]. *)
Lemma tool_reports_error c d v w :
  executor_yields (JObj d) ->
  dict_get d "error" = Some v ->
  calls_executor c = true ->
  payload_decodes c = true ->
  fst (run_tool c w) = inr ("Error: " ++ py_str v).
Proof.
  intros Hy Hv Hc Hdec.
  destruct c; try discriminate Hc; decode_payload Hdec;
    enter_yield Hy; rewrite unless_error_dict, Hv; reflexivity.
Qed.

(** X11. When the upstream answers every request with a status outside
    200..299, every tool that reaches the executor returns the text
    [Error: HTTP <status>: <response text>]. *)
Theorem http_error_reported_by_every_tool c resp w :
  (forall r, transport r = inr resp) ->
  is_success resp = false ->
  calls_executor c = true ->
  payload_decodes c = true ->
  fst (run_tool c w)
    = inr ("Error: HTTP " ++ str_of_Z (status_code resp) ++ ": " ++ text resp).
Proof.
  intros Ht Hs Hc Hdec.
  apply (tool_reports_error c _ (JStr ("HTTP " ++ str_of_Z (status_code resp)
                                         ++ ": " ++ text resp)) w
           (yields_http_error resp Ht Hs)); auto.
Qed.

(** X12. When the transport fails on every request (connection error,
    timeout), every tool that reaches the executor returns the text
    [Error: Request failed: <str(e)>] instead of raising. *)
Theorem transport_failure_reported_by_every_tool c cls msg w :
  (forall r, transport r = inl (Raised cls msg)) ->
  calls_executor c = true ->
  payload_decodes c = true ->
  fst (run_tool c w) = inr ("Error: Request failed: " ++ str_exn cls msg).
Proof.
  intros Ht Hc Hdec.
  apply (tool_reports_error c _ (JStr ("Request failed: " ++ str_exn cls msg)) w
           (yields_failure cls msg Ht)); auto.
Qed.

Lemma unless_error_clean v rest w :
  is_scalar v = false ->
  mentions_error v = false ->
  unless_error v rest w = rest w.
Proof.
  intros Hs Hm. unfold unless_error, bind, py_in, ret.
  destruct v; try discriminate Hs; cbn in Hm; rewrite Hm; reflexivity.
Qed.

(** X13. On a successful outcome that is a dict, a list or a string and
    does not test positive for ["error" in data], every tool but
    get_test_cases returns without raising: the update tools, delete_link
    and health_check answer with their fixed sentence whatever the outcome
    holds, every other tool with the 2-space-indented JSON text of the
    whole outcome. *)
Theorem success_is_confirmed_or_echoed c v w :
  upstream_succeeds_with v ->
  is_scalar v = false ->
  mentions_error v = false ->
  calls_executor c = true ->
  payload_decodes c = true ->
  is_get_test_cases c = false ->
  fst (run_tool c w) =
    inr (match confirmation c with
         | Some sentence => sentence
         | None => json_dumps_indent2 v
         end).
Proof.
  intros Hup Hs Hm Hc Hdec Hg.
  apply yields_of_upstream in Hup.
  destruct c; try discriminate Hc; try discriminate Hg; decode_payload Hdec;
    enter_yield Hup; rewrite (unless_error_clean _ _ _ Hs Hm); reflexivity.
Qed.

(** X14. On a successful response whose body decodes to null, a boolean
    or a number, every tool that reaches the executor raises [TypeError]:
    the test ["error" in data] is applied to a value that is no
    container. *)
Theorem scalar_outcome_raises c v w :
  upstream_succeeds_with v ->
  is_scalar v = true ->
  calls_executor c = true ->
  payload_decodes c = true ->
  exists msg, fst (run_tool c w) = inl (Raised TypeError msg).
Proof.
  intros Hup Hv Hc Hdec.
  apply yields_of_upstream in Hup.
  destruct c; try discriminate Hc; decode_payload Hdec;
    enter_yield Hup;
    (destruct v; try discriminate Hv; eexists; reflexivity).
Qed.

(** X15. On a successful outcome that is a list holding the text [error]
    as an element, or a string containing [error], every tool that reaches
    the executor raises [TypeError]: the membership test succeeds and
    [data['error']] then indexes a list or a string with a string. *)
Theorem non_dict_error_mention_raises c v w :
  upstream_succeeds_with v ->
  (exists l, v = JList l) \/ (exists s, v = JStr s) ->
  mentions_error v = true ->
  calls_executor c = true ->
  payload_decodes c = true ->
  exists msg, fst (run_tool c w) = inl (Raised TypeError msg).
Proof.
  intros Hup Hv Hm Hc Hdec.
  apply yields_of_upstream in Hup.
  assert (Hu : forall rest w1,
             exists msg,
               unless_error v rest w1 = (inl (Raised TypeError msg), w1)).
  { intros rest w1. unfold unless_error, bind, py_in, py_getitem, ret, raise.
    destruct Hv as [[l ->] | [s ->]]; cbn in Hm; rewrite Hm;
      eexists; reflexivity. }
  destruct c; try discriminate Hc; decode_payload Hdec;
    enter_yield Hup;
    match goal with
    | |- context [unless_error v ?rest ?w1] =>
        destruct (Hu rest w1) as [msg Hmsg]; rewrite Hmsg
    end;
    eexists; reflexivity.
Qed.

(** X16. On a successful outcome that is a list or a string and does not
    test positive for ["error" in data], get_test_cases raises
    [AttributeError]: it asks the outcome for [.get("values", [])]. *)
Theorem listing_of_non_dict_raises
    project_key folder_id max_results start_at v w :
  upstream_succeeds_with v ->
  (exists l, v = JList l) \/ (exists s, v = JStr s) ->
  mentions_error v = false ->
  exists msg,
    fst (get_test_cases project_key folder_id max_results start_at w)
      = inl (Raised AttributeError msg).
Proof.
  intros Hup Hv Hm.
  apply yields_of_upstream in Hup.
  enter_yield Hup.
  rewrite unless_error_clean;
    [ | destruct Hv as [[l ->] | [s ->]]; reflexivity | exact Hm ].
  destruct Hv as [[l ->] | [s ->]]; eexists; reflexivity.
Qed.

(** X17. No listing tool bounds [max_results] from below: a value of at
    most 1000 is sent as [maxResults] unchanged, 0 and negative values
    included. *)
Theorem small_max_results_forwarded c m w :
  max_results_arg c = Some m ->
  m <= 1000 ->
  exists r : request,
    calls (snd (run_tool c w)) = (calls w ++ [r])%list /\
    dict_get (outgoing r) "maxResults" = Some (JInt m).
Proof.
  intros Hc Hm.
  destruct c; try discriminate Hc; cbn in Hc; inversion Hc; subst;
    (eexists; split;
     [ one_request
     | cbn [outgoing fields_of req_json req_params app];
       rewrite ?dict_get_set_if;
       cbn [dict_of fold_left fst snd dict_set dict_get String.eqb Ascii.eqb
            Bool.eqb to_json PyValue_Z];
       try rewrite Z.min_l by lia; reflexivity ]).
Qed.

(** ** More on the curated listing *)

Lemma nested_plain_raises t k sub w :
  absent_or_obj (dict_get t k) = false ->
  exists msg,
    bind (py_get (JObj t) k (JObj [])) (fun p => py_get p sub JNull) w
      = (inl (Raised AttributeError msg), w).
Proof.
  unfold absent_or_obj, bind, py_get, ret, raise.
  destruct (dict_get t k) as [[ | | | | | o] | ];
    intros H; try discriminate H; eexists; reflexivity.
Qed.

Lemma nested_guarded_raises t k sub w :
  falsy_or_obj (dict_get t k) = false ->
  exists msg,
    bind (py_get (JObj t) k JNull)
      (fun f => if truthy f
                then bind (py_get (JObj t) k (JObj []))
                       (fun f' => py_get f' sub JNull)
                else ret JNull) w
      = (inl (Raised AttributeError msg), w).
Proof.
  unfold falsy_or_obj, bind, py_get, ret, raise.
  destruct (dict_get t k) as [v | ]; [ | discriminate ].
  destruct v as [ | b | n | s | l | o]; cbn; try discriminate.
  - destruct b; [ intros _; eexists; reflexivity | discriminate ].
  - destruct (n =? 0); [ discriminate | intros _; eexists; reflexivity ].
  - destruct (String.eqb s EmptyString);
      [ discriminate | intros _; eexists; reflexivity ].
  - destruct l; [ discriminate | intros _; eexists; reflexivity ].
  - rewrite orb_true_r. discriminate.
Qed.

Ltac raise_with H :=
  let msg := fresh "msg" in
  let Hmsg := fresh "Hmsg" in
  destruct H as [msg Hmsg]; exists msg; apply bind_raise; exact Hmsg.

(** A test case that is not projectable is not projected: some [.get] is
    applied to a value that is no dict. *)
Lemma project_not_projectable tc w :
  projectable tc = false ->
  exists msg, project_test_case tc w = (inl (Raised AttributeError msg), w).
Proof.
  intros H. unfold project_test_case.
  destruct tc as [ | b | n | s | l | t];
    try (eexists; apply bind_raise; reflexivity).
  unfold projectable in H.
  do 3 run_with ltac:(apply py_get_dict).
  destruct (absent_or_obj (dict_get t "priority")) eqn:Hp;
    [ | raise_with (nested_plain_raises t "priority" "id" w Hp) ].
  run_with ltac:(apply nested_plain; exact Hp).
  destruct (absent_or_obj (dict_get t "status")) eqn:Hs;
    [ | raise_with (nested_plain_raises t "status" "id" w Hs) ].
  run_with ltac:(apply nested_plain; exact Hs).
  do 4 run_with ltac:(apply py_get_dict).
  destruct (falsy_or_obj (dict_get t "folder")) eqn:Hf;
    [ | raise_with (nested_guarded_raises t "folder" "id" w Hf) ].
  run_with ltac:(apply nested_guarded; exact Hf).
  destruct (falsy_or_obj (dict_get t "owner")) eqn:Ho;
    [ discriminate H
    | raise_with (nested_guarded_raises t "owner" "accountId" w Ho) ].
Qed.

Lemma for_each_not_projectable tcs w :
  forallb projectable tcs = false ->
  exists msg,
    for_each project_test_case tcs w = (inl (Raised AttributeError msg), w).
Proof.
  induction tcs as [ | tc tcs IH]; cbn [forallb for_each]; intros H.
  - discriminate H.
  - destruct (projectable tc) eqn:Htc.
    + run_with ltac:(apply project_projectable; exact Htc).
      raise_with (IH H).
    + raise_with (project_not_projectable tc w Htc).
Qed.

(** X18. On a successful outcome whose ["values"] is a list, get_test_cases
    returns a text exactly when every element is projectable; as soon as
    one element is not (not an object, or with a [priority] or [status]
    that is present and no object, or a truthy [folder] or [owner] that is
    no object) the call raises [AttributeError]. *)
Theorem listing_returns_iff_projectable
    project_key folder_id max_results start_at d tcs w :
  upstream_succeeds_with (JObj d) ->
  dict_get d "error" = None ->
  dict_get d "values" = Some (JList tcs) ->
  ((exists s,
      fst (get_test_cases project_key folder_id max_results start_at w) = inr s)
   <-> forallb projectable tcs = true)
  /\
  (forallb projectable tcs = false ->
   exists msg,
     fst (get_test_cases project_key folder_id max_results start_at w)
       = inl (Raised AttributeError msg)).
Proof.
  intros Hup Herr Hv.
  assert (Hbad : forallb projectable tcs = false ->
                 exists msg,
                   fst (get_test_cases project_key folder_id max_results
                          start_at w) = inl (Raised AttributeError msg)).
  { intros Hno. enter_tool Hup. rewrite Herr.
    run_with ltac:(apply py_get_dict).
    replace (get_or d "values" (JList [])) with (JList tcs)
      by (unfold get_or; rewrite Hv; reflexivity).
    destruct tcs as [ | x tcs]; [ discriminate Hno | ].
    cbn [truthy negb].
    run_with ltac:(reflexivity).
    destruct (for_each_not_projectable (x :: tcs) w' Hno) as [msg Hmsg].
    exists msg. erewrite bind_raise by exact Hmsg. reflexivity. }
  split; [ split | exact Hbad ].
  - intros [s Hs].
    destruct (forallb projectable tcs) eqn:Hok; [ reflexivity | ].
    destruct (Hbad eq_refl) as [msg Hmsg]. congruence.
  - intros Hok. enter_tool Hup. rewrite Herr.
    run_with ltac:(apply py_get_dict).
    replace (get_or d "values" (JList [])) with (JList tcs)
      by (unfold get_or; rewrite Hv; reflexivity).
    destruct tcs as [ | x tcs]; [ eexists; reflexivity | ].
    cbn [truthy negb].
    run_with ltac:(reflexivity).
    run_with ltac:(apply for_each_projectable; exact Hok).
    do 4 run_with ltac:(apply py_get_dict).
    eexists. reflexivity.
Qed.

(** X19. On a successful outcome, get_test_cases answers
    [No test cases found.] for every falsy ["values"], not only for the
    empty list: null, false, 0, the empty string and the empty object
    give the same text. *)
Theorem falsy_values_mean_no_test_cases
    project_key folder_id max_results start_at d w :
  upstream_succeeds_with (JObj d) ->
  dict_get d "error" = None ->
  truthy (get_or d "values" (JList [])) = false ->
  fst (get_test_cases project_key folder_id max_results start_at w)
    = inr "No test cases found.".
Proof.
  intros Hup Herr Hv. enter_tool Hup. rewrite Herr.
  run_with ltac:(apply py_get_dict).
  rewrite Hv. reflexivity.
Qed.

(** X20. On a successful outcome whose ["values"] is truthy but no list,
    get_test_cases raises: [TypeError] for true and for a non-zero number
    (the loop cannot iterate), [AttributeError] for a non-empty string or
    object (the loop visits characters or keys, which have no [.get]). *)
Theorem non_list_values_raise
    project_key folder_id max_results start_at d v w :
  upstream_succeeds_with (JObj d) ->
  dict_get d "error" = None ->
  dict_get d "values" = Some v ->
  truthy v = true ->
  (forall l, v <> JList l) ->
  exists msg,
    fst (get_test_cases project_key folder_id max_results start_at w)
      = inl (Raised (if is_scalar v then TypeError else AttributeError) msg).
Proof.
  intros Hup Herr Hv Ht Hl. enter_tool Hup. rewrite Herr.
  run_with ltac:(apply py_get_dict).
  replace (get_or d "values" (JList [])) with v
    by (unfold get_or; rewrite Hv; reflexivity).
  rewrite Ht. cbn [negb].
  destruct v as [ | b | n | s | l | o]; cbn [is_scalar];
    try (eexists; reflexivity).
  - destruct s as [ | c s]; [ discriminate Ht | ].
    eexists. reflexivity.
  - exfalso. apply (Hl l). reflexivity.
  - destruct o as [ | [k x] o]; [ discriminate Ht | ].
    eexists. reflexivity.
Qed.

(** X21. Whatever a test case holds, an entry that [get_test_cases]
    produces for it is a dict with exactly the eleven curated keys, in
    their fixed order: no other field of the test case reaches the
    listing, and a missing field shows as null. *)
Theorem projected_entry_has_curated_keys tc entry w w' :
  project_test_case tc w = (inr entry, w') ->
  exists fields,
    entry = JObj fields /\ map fst fields = curated_keys /\ w' = w.
Proof.
  intros H.
  destruct (projectable tc) eqn:Htc.
  - rewrite (project_projectable tc w Htc) in H.
    inversion H; subst.
    destruct tc as [ | | | | | t]; try discriminate Htc.
    eexists. split; [ reflexivity | ]. split; reflexivity.
  - destruct (project_not_projectable tc w Htc) as [msg Hmsg].
    congruence.
Qed.

(** ** The self-description of the server *)

Lemma is_str_In s l : existsb (is_str s) l = true -> In (JStr s) l.
Proof.
  intros H. apply existsb_exists in H. destruct H as (x & Hin & Hx).
  destruct x; try discriminate Hx.
  cbn in Hx. apply String.eqb_eq in Hx. subst. exact Hin.
Qed.

(** X22. [get_api_info] never touches the network and never raises: it
    returns the JSON text of a dict that reports the configured API base
    and region and lists, under ["available_endpoints"], the name of every
    registered tool; the list has 45 entries, as many as there are tools. *)
Theorem api_info_advertises_every_tool w :
  exists info,
    run_tool Call_get_api_info w = (inr (json_dumps_indent2 (JObj info)), w) /\
    dict_get info "api_base" = Some (JStr API_BASE) /\
    dict_get info "region"
      = Some (JStr (if USE_EU_REGION then "EU" else "Global")) /\
    (forall c, In (JStr (tool_name c)) (advertised info)) /\
    List.length (advertised info) = 45%nat.
Proof.
  eexists. split; [ reflexivity | ].
  split; [ reflexivity | ].
  split; [ reflexivity | ].
  split; [ | reflexivity ].
  intros c. apply is_str_In. destruct c; reflexivity.
Qed.

End Adapter.

(** ** The properties on concrete runs *)

Lemma ok_succeeds d :
  is_success (ok d) = true ->
  status_code (ok d) <> 204 ->
  content (ok d) <> EmptyString ->
  loads_fragment (content (ok d)) = inr (JObj d) ->
  upstream_succeeds_with (always (ok d)) loads_fragment (JObj d).
Proof.
  intros Hs H204 He Hj. exists (ok d).
  split; [ intros r; reflexivity | ].
  split; [ exact Hs | ].
  right. repeat split; assumption.
Defined.

Lemma one_case_succeeds :
  upstream_succeeds_with (always (ok one_case)) loads_fragment (JObj one_case).
Proof.
  apply ok_succeeds;
    [ reflexivity | discriminate | discriminate | vm_compute; reflexivity ].
Defined.

Lemma null_status_case_succeeds :
  upstream_succeeds_with (always (ok null_status_case)) loads_fragment
    (JObj null_status_case).
Proof.
  apply ok_succeeds;
    [ reflexivity | discriminate | discriminate | vm_compute; reflexivity ].
Defined.

Lemma error_field_succeeds :
  upstream_succeeds_with (always (ok error_field)) loads_fragment
    (JObj error_field).
Proof.
  apply ok_succeeds;
    [ reflexivity | discriminate | discriminate | vm_compute; reflexivity ].
Defined.

Lemma non_2xx_witness :
  make_zephyr_request "token" (always not_found) loads_fragment show
    "GET" "https://host/v2/testcases/SM-T1" None None w0
  = (inr (JObj [("error", JStr "HTTP 404: Not Found");
                ("status_code", JInt 404)]),
     {| calls := [mk_request GET "https://host/v2/testcases/SM-T1"
                    (fixed_headers "token") None None 30];
        logged := ["API error: HTTP 404: Not Found"] |}).
Proof.
  exact (non_2xx_yields_error_record "token" (always not_found) loads_fragment
           show "GET" "https://host/v2/testcases/SM-T1" None None
           (mk_request GET "https://host/v2/testcases/SM-T1"
              (fixed_headers "token") None None 30)
           not_found w0 eq_refl eq_refl eq_refl).
Defined.

Lemma empty_success_witness :
  make_zephyr_request "token" (always no_content) loads_fragment show
    "delete" "https://host/v2/links/7" None None w0
  = (inr (JObj [("success", JBool true)]),
     {| calls := [mk_request DELETE "https://host/v2/links/7"
                    (fixed_headers "token") None None 30];
        logged := [] |}).
Proof.
  exact (empty_success_yields_marker "token" (always no_content) loads_fragment
           show "delete" "https://host/v2/links/7" None None
           (mk_request DELETE "https://host/v2/links/7"
              (fixed_headers "token") None None 30)
           no_content w0 eq_refl eq_refl (or_introl eq_refl)).
Defined.

(** A 404 with a zero-length body is an error outcome, not the success
    marker. *)
Lemma empty_body_404_is_error :
  content not_found_empty = EmptyString /\
  fst (make_zephyr_request "token" (always not_found_empty) loads_fragment show
         "GET" "https://host/v2/testcases/SM-T1" None None w0)
    = inr (JObj [("error", JStr "HTTP 404: "); ("status_code", JInt 404)]) /\
  fst (make_zephyr_request "token" (always not_found_empty) loads_fragment show
         "GET" "https://host/v2/testcases/SM-T1" None None w0)
    <> inr success_marker.
Proof.
  split; [ reflexivity | ].
  split; [ reflexivity | ].
  vm_compute. discriminate.
Qed.

Lemma unsupported_method_witness :
  make_zephyr_request "token" unreachable loads_fragment show
    "patch" "https://host/v2/testcases" None None w0
  = (inr (JObj [("error",
                 JStr "Request failed: Unsupported HTTP method: patch")]),
     {| calls := [];
        logged := ["Request failed: Unsupported HTTP method: patch"] |}).
Proof.
  exact (unsupported_method_fails_fast "token" unreachable loads_fragment show
           "patch" "https://host/v2/testcases" None None w0 eq_refl).
Defined.

Lemma supported_method_witness :
  exists r : request,
    calls (snd (make_zephyr_request "token" unreachable loads_fragment show
                  "post" "https://host/v2/testcases" None None w0)) = [r]
    /\ req_headers r = [("Authorization", "Bearer token");
                        ("Content-Type", "application/json")]
    /\ req_timeout r = 30
    /\ req_url r = "https://host/v2/testcases"
    /\ req_params r = None.
Proof.
  exact (supported_method_one_call "token" unreachable loads_fragment show
           "post" "https://host/v2/testcases" None None w0 eq_refl).
Defined.

Lemma malformed_payload_witness :
  run_tool "token" false unreachable loads_fragment show
    (Call_update_test_case "SM-T1" "{bad json") w0
  = (inr "Error: Invalid JSON format for test_case_data", w0).
Proof.
  exact (malformed_payload_fails_locally "token" false unreachable
           loads_fragment show (Call_update_test_case "SM-T1" "{bad json")
           "test_case_data" "{bad json" "Expecting value" w0 eq_refl eq_refl).
Defined.

Lemma optional_args_witness :
  (exists r : request,
     calls (snd (run_tool "token" false unreachable loads_fragment show
                   (Call_create_test_case "SM" "Login works" None None None
                      None (Some 0) None (Some 90) None None) w0)) = [r] /\
     dict_get (outgoing r) "folderId" = None)
  /\
  (exists r : request,
     calls (snd (run_tool "token" false unreachable loads_fragment show
                   (Call_create_test_case "SM" "Login works" None None None
                      None (Some 0) None (Some 90) None None) w0)) = [r] /\
     dict_get (outgoing r) "estimatedTime" = Some (JInt 90))
  /\
  (exists r : request,
     calls (snd (run_tool "token" false unreachable loads_fragment show
                   (Call_get_test_execution "SM-E1" false) w0)) = [r] /\
     dict_get (outgoing r) "includeStepLinks" = Some (JBool false)).
Proof.
  split; [ | split ].
  - apply (proj1 (optional_args_sent_iff_truthy "token" false unreachable
                    loads_fragment show
                    (Call_create_test_case "SM" "Login works" None None None
                       None (Some 0) None (Some 90) None None) w0)
             "folderId" (JInt 0)).
    cbn. tauto.
  - apply (proj1 (optional_args_sent_iff_truthy "token" false unreachable
                    loads_fragment show
                    (Call_create_test_case "SM" "Login works" None None None
                       None (Some 0) None (Some 90) None None) w0)
             "estimatedTime" (JInt 90)).
    cbn. tauto.
  - apply (proj2 (optional_args_sent_iff_truthy "token" false unreachable
                    loads_fragment show
                    (Call_get_test_execution "SM-E1" false) w0)
             "includeStepLinks" (JBool false)).
    cbn. tauto.
Defined.

(** The flags and the offset of [get_test_executions] are sent although
    they are false and 0. *)
Lemma false_flag_and_zero_offset_are_sent :
  truthy (to_json false) = false /\ truthy (to_json 0) = false /\
  exists r : request,
    calls (snd (get_test_executions "token" false unreachable loads_fragment
                  show None None None None None None false false 25 0 w0))
      = [r] /\
    dict_get (outgoing r) "includeStepLinks" = Some (JBool false) /\
    dict_get (outgoing r) "onlyLastExecutions" = Some (JBool false) /\
    dict_get (outgoing r) "startAt" = Some (JInt 0).
Proof.
  split; [ reflexivity | ].
  split; [ reflexivity | ].
  eexists. split; [ vm_compute; reflexivity | ].
  repeat split.
Qed.

Lemma max_results_witness :
  exists r : request,
    calls (snd (run_tool "token" false unreachable loads_fragment show
                  (Call_get_test_cases "SM" None 5000 0) w0)) = [r] /\
    dict_get (outgoing r) "maxResults" = Some (JInt 1000).
Proof.
  apply (max_results_clamped "token" false unreachable loads_fragment show
           (Call_get_test_cases "SM" None 5000 0) 5000 w0 eq_refl).
  reflexivity.
Defined.

(** [get_test_case_versions] sends a [max_results] of 5000 as 5000. *)
Lemma versions_forward_5000 :
  exists r : request,
    calls (snd (get_test_case_versions "token" false unreachable loads_fragment
                  show "SM-T1" 5000 0 w0)) = [r] /\
    dict_get (outgoing r) "maxResults" = Some (JInt 5000) /\
    JInt 5000 <> JInt 1000.
Proof.
  eexists. split; [ vm_compute; reflexivity | ].
  split; [ reflexivity | discriminate ].
Qed.

Lemma listing_witness :
  fst (get_test_cases "token" false (always (ok one_case)) loads_fragment show
         "SM" None 25 0 w0)
    = inr (json_dumps_indent2 (listing one_case
             [JObj [("id", JInt 1); ("key", JStr "SM-T1");
                    ("priority", JObj [("id", JInt 3)]);
                    ("folder", JNull); ("owner", JNull)]])).
Proof.
  apply (proj2 (get_test_cases_listing "token" false (always (ok one_case))
                  loads_fragment show "SM" None 25 0 one_case w0
                  one_case_succeeds eq_refl)).
  - reflexivity.
  - discriminate.
  - reflexivity.
Defined.

(** A successful response with a non-empty ["values"] list whose test case
    has a null status yields no listing: the call raises. *)
Lemma listing_fails_on_null_status :
  is_success (ok null_status_case) = true /\
  loads_fragment (content (ok null_status_case)) = inr (JObj null_status_case) /\
  dict_get null_status_case "error" = None /\
  fst (get_test_cases "token" false (always (ok null_status_case))
         loads_fragment show "SM" None 25 0 w0)
    = inl (Raised AttributeError "'NoneType' object has no attribute 'get'").
Proof.
  split; [ reflexivity | ].
  split; [ vm_compute; reflexivity | ].
  split; [ reflexivity | ].
  vm_compute. reflexivity.
Qed.

Lemma null_status_witness :
  exists msg,
    fst (get_test_cases "token" false (always (ok null_status_case))
           loads_fragment show "SM" None 25 0 w0)
      = inl (Raised AttributeError msg).
Proof.
  apply (proj1 (null_priority_or_status_raises "token" false
                  (always (ok null_status_case)) loads_fragment show
                  "SM" None 25 0 null_status_case
                  [JObj [("key", JStr "SM-T1"); ("status", JNull)]] w0
                  null_status_case_succeeds eq_refl eq_refl)
           (JObj [("key", JStr "SM-T1"); ("status", JNull)])).
  - left. reflexivity.
  - reflexivity.
Defined.

Lemma error_field_witness :
  fst (run_tool "token" false (always (ok error_field)) loads_fragment show
         (Call_get_test_case "SM-T1") w0)
    = inr "Error: quota exceeded".
Proof.
  apply (proj1 (error_key_decides "token" false (always (ok error_field))
                  loads_fragment show (Call_get_test_case "SM-T1")
                  error_field w0 error_field_succeeds eq_refl eq_refl)
           (JStr "quota exceeded")).
  reflexivity.
Defined.

(** ** The end-to-end scenarios of the specification *)

Example create_test_case_minimal_body :
  map req_json
    (calls (snd (create_test_case "token" false unreachable loads_fragment show
                   "SM" "Login works" None None None None None None None None
                   None w0)))
  = [Some (JObj [("projectKey", JStr "SM"); ("name", JStr "Login works")])].
Proof. vm_compute. reflexivity. Qed.

Example get_test_case_404 :
  fst (get_test_case "token" false (always not_found) loads_fragment show
         "SM-T1" w0)
  = inr "Error: HTTP 404: Not Found".
Proof. vm_compute. reflexivity. Qed.

(** ** The configuration *)

Lemma upper_lower_ascii c : upper_ascii (lower_ascii c) = upper_ascii c.
Proof.
  destruct c as [[] [] [] [] [] [] [] []]; reflexivity.
Qed.

Lemma lower_upper_ascii c : lower_ascii (upper_ascii c) = lower_ascii c.
Proof.
  destruct c as [[] [] [] [] [] [] [] []]; reflexivity.
Qed.

Lemma upper_lower s : upper (lower s) = upper s.
Proof.
  induction s as [ | c s IH]; cbn [upper lower]; [ reflexivity | ].
  rewrite upper_lower_ascii, IH. reflexivity.
Qed.

Lemma lower_upper s : lower (upper s) = lower s.
Proof.
  induction s as [ | c s IH]; cbn [upper lower]; [ reflexivity | ].
  rewrite lower_upper_ascii, IH. reflexivity.
Qed.

Lemma lower_true_iff v : lower v = "true" <-> upper v = "TRUE".
Proof.
  split; intros H.
  - rewrite <- upper_lower, H. reflexivity.
  - rewrite <- lower_upper, H. reflexivity.
Qed.

(** X23. The import succeeds exactly when ZEPHYR_API_TOKEN is set and not
    empty; otherwise it stops with the [ValueError] naming the variable.
    When it succeeds, the EU base is chosen exactly when
    ZEPHYR_USE_EU_REGION is set to a text that upper-cases to TRUE, and
    the global base in every other case, the unset variable included. *)
Theorem config_resolution (env : environ) :
  (forall t,
     env "ZEPHYR_API_TOKEN" = Some t -> t <> EmptyString ->
     exists cfg,
       load_config env = inr cfg /\
       cfg_API_TOKEN cfg = t /\
       cfg_API_BASE cfg = API_BASE (cfg_USE_EU_REGION cfg) /\
       (cfg_USE_EU_REGION cfg = true <->
        exists v, env "ZEPHYR_USE_EU_REGION" = Some v /\ upper v = "TRUE"))
  /\
  (env "ZEPHYR_API_TOKEN" = None \/ env "ZEPHYR_API_TOKEN" = Some EmptyString ->
   load_config env
     = inl (Raised ValueError
              "ZEPHYR_API_TOKEN environment variable is not set")).
Proof.
  split.
  - intros t Ht Hne.
    unfold load_config. rewrite Ht.
    apply String.eqb_neq in Hne.
    cbn [to_json PyValue_option PyValue_string truthy]. rewrite Hne.
    cbn [negb].
    eexists. split; [ reflexivity | ].
    cbn [cfg_API_TOKEN cfg_API_BASE cfg_USE_EU_REGION].
    split; [ reflexivity | ]. split; [ reflexivity | ].
    unfold getenv_default.
    destruct (env "ZEPHYR_USE_EU_REGION") as [v | ].
    + rewrite String.eqb_eq. rewrite lower_true_iff.
      split.
      * intros H. exists v. auto.
      * intros (v' & Hv' & Hu). inversion Hv'. subst. exact Hu.
    + cbn. split; [ discriminate | intros (v & Hv & _); discriminate ].
  - intros [Hn | He]; unfold load_config; rewrite ?Hn, ?He; reflexivity.
Qed.

(** ** Further properties on concrete runs *)

Lemma answers_succeeds resp v :
  is_success resp = true ->
  status_code resp <> 204 ->
  content resp <> EmptyString ->
  loads_fragment (content resp) = inr v ->
  upstream_succeeds_with (always resp) loads_fragment v.
Proof.
  intros Hs H204 He Hj. exists resp.
  split; [ intros r; reflexivity | ].
  split; [ exact Hs | ].
  right. repeat split; assumption.
Defined.

Ltac concrete_upstream :=
  apply answers_succeeds;
  [ reflexivity | discriminate | discriminate | vm_compute; reflexivity ].

Lemma transport_failure_witness :
  make_zephyr_request "token" unreachable loads_fragment show
    "GET" "https://host/v2/projects" None None w0
  = (inr (JObj [("error", JStr "Request failed: connection refused")]),
     {| calls := [mk_request GET "https://host/v2/projects"
                    (fixed_headers "token") None None 30];
        logged := ["Request failed: connection refused"] |}).
Proof.
  exact (transport_failure_yields_message "token" unreachable loads_fragment
           show "GET" "https://host/v2/projects" None None
           (mk_request GET "https://host/v2/projects" (fixed_headers "token")
              None None 30)
           RequestError "connection refused" w0 eq_refl eq_refl).
Defined.

Lemma undecodable_body_witness :
  make_zephyr_request "token" (always garbled) loads_fragment show
    "GET" "https://host/v2/projects" None None w0
  = (inr (JObj [("error", JStr "Request failed: Expecting value")]),
     {| calls := [mk_request GET "https://host/v2/projects"
                    (fixed_headers "token") None None 30];
        logged := ["Request failed: Expecting value"] |}).
Proof.
  apply (undecodable_body_yields_message "token" (always garbled)
           loads_fragment show "GET" "https://host/v2/projects" None None
           (mk_request GET "https://host/v2/projects" (fixed_headers "token")
              None None 30)
           garbled "Expecting value" w0);
    first [ reflexivity | discriminate ].
Defined.

Lemma decoded_body_witness :
  make_zephyr_request "token" (always null_body) loads_fragment show
    "GET" "https://host/v2/projects" None None w0
  = (inr JNull,
     {| calls := [mk_request GET "https://host/v2/projects"
                    (fixed_headers "token") None None 30];
        logged := [] |}).
Proof.
  apply (decoded_body_returned_verbatim "token" (always null_body)
           loads_fragment show "GET" "https://host/v2/projects" None None
           (mk_request GET "https://host/v2/projects" (fixed_headers "token")
              None None 30)
           null_body JNull w0);
    first [ reflexivity | discriminate ].
Defined.

Lemma method_case_witness :
  make_zephyr_request "token" (always not_found) loads_fragment show
    "Get" "https://host/v2/projects" None None w0
  = make_zephyr_request "token" (always not_found) loads_fragment show
      "GET" "https://host/v2/projects" None None w0.
Proof.
  exact (method_case_insensitive "token" (always not_found) loads_fragment
           show "Get" "GET" "https://host/v2/projects" None None w0
           eq_refl eq_refl).
Defined.

Lemma body_dropped_witness :
  exists r : request,
    calls (snd (make_zephyr_request "token" unreachable loads_fragment show
                  "delete" "https://host/v2/links/7"
                  (Some (JObj updated)) None w0)) = [r] /\
    req_json r = None.
Proof.
  exact (body_only_with_post_and_put "token" unreachable loads_fragment show
           "delete" "https://host/v2/links/7" (Some (JObj updated)) None w0
           eq_refl).
Defined.

Lemma tool_request_witness :
  exists r : request,
    calls (snd (run_tool "token" true unreachable loads_fragment show
                  (Call_delete_link 7) w0)) = [r] /\
    prefix (API_BASE true) (req_url r) = true /\
    req_headers r = fixed_headers "token" /\
    req_timeout r = 30 /\
    tool_verb (Call_delete_link 7) = Some (req_verb r) /\
    (req_verb r = GET -> req_json r = None).
Proof.
  exact (tool_request_shape "token" true unreachable loads_fragment show
           (Call_delete_link 7) w0 eq_refl eq_refl).
Defined.

Lemma outgoing_fields_witness :
  exists r : request,
    calls (snd (run_tool "token" false unreachable loads_fragment show
                  (Call_create_test_case "SM" "Login works" (Some "Sign in")
                     (Some EmptyString) None None (Some 0) None (Some 90) None
                     (Some ["smoke"])) w0)) = [r] /\
    outgoing r = [("projectKey", JStr "SM"); ("name", JStr "Login works");
                  ("objective", JStr "Sign in"); ("estimatedTime", JInt 90);
                  ("labels", JList [JStr "smoke"])].
Proof.
  exact (outgoing_fields_exact "token" false unreachable loads_fragment show
           (Call_create_test_case "SM" "Login works" (Some "Sign in")
              (Some EmptyString) None None (Some 0) None (Some 90) None
              (Some ["smoke"])) w0 eq_refl eq_refl).
Defined.


Lemma http_error_witness :
  fst (run_tool "token" false (always not_found) loads_fragment show
         (Call_update_priority 4 "{}") w0)
  = inr "Error: HTTP 404: Not Found".
Proof.
  apply (http_error_reported_by_every_tool "token" false (always not_found)
           loads_fragment show (Call_update_priority 4 "{}") not_found w0);
    first [ reflexivity | intros r; reflexivity ].
Defined.

Lemma transport_failure_tool_witness :
  fst (run_tool "token" false unreachable loads_fragment show
         Call_health_check w0)
  = inr "Error: Request failed: connection refused".
Proof.
  apply (transport_failure_reported_by_every_tool "token" false unreachable
           loads_fragment show Call_health_check RequestError
           "connection refused" w0);
    first [ reflexivity | intros r; reflexivity ].
Defined.

Lemma updated_succeeds :
  upstream_succeeds_with (always (ok updated)) loads_fragment (JObj updated).
Proof. concrete_upstream. Defined.

Lemma confirmation_witness :
  fst (run_tool "token" false (always (ok updated)) loads_fragment show
         (Call_update_test_case "SM-T1" "{}") w0)
  = inr "Test case updated successfully".
Proof.
  apply (success_is_confirmed_or_echoed "token" false (always (ok updated))
           loads_fragment show (Call_update_test_case "SM-T1" "{}")
           (JObj updated) w0 updated_succeeds);
    reflexivity.
Defined.

Lemma error_list_succeeds :
  upstream_succeeds_with (always (ok_value error_list)) loads_fragment
    error_list.
Proof. concrete_upstream. Defined.

Lemma error_list_witness :
  exists msg,
    fst (run_tool "token" false (always (ok_value error_list)) loads_fragment
           show (Call_get_issue_link_test_cases "SM-1") w0)
    = inl (Raised TypeError msg).
Proof.
  apply (non_dict_error_mention_raises "token" false
           (always (ok_value error_list)) loads_fragment show
           (Call_get_issue_link_test_cases "SM-1") error_list w0
           error_list_succeeds);
    first [ reflexivity | left; eexists; reflexivity ].
Defined.

Lemma linked_cases_succeeds :
  upstream_succeeds_with (always (ok_value linked_cases)) loads_fragment
    linked_cases.
Proof. concrete_upstream. Defined.

Lemma listing_of_list_witness :
  exists msg,
    fst (get_test_cases "token" false (always (ok_value linked_cases))
           loads_fragment show "SM" None 25 0 w0)
    = inl (Raised AttributeError msg).
Proof.
  apply (listing_of_non_dict_raises "token" false
           (always (ok_value linked_cases)) loads_fragment show
           "SM" None 25 0 linked_cases w0 linked_cases_succeeds);
    first [ reflexivity | left; eexists; reflexivity ].
Defined.

Lemma small_max_results_witness :
  exists r : request,
    calls (snd (run_tool "token" false unreachable loads_fragment show
                  (Call_get_projects (-3) 0) w0)) = [r] /\
    dict_get (outgoing r) "maxResults" = Some (JInt (-3)).
Proof.
  apply (small_max_results_forwarded "token" false unreachable loads_fragment
           show (Call_get_projects (-3) 0) (-3) w0 eq_refl).
  discriminate.
Defined.

Lemma null_body_succeeds :
  upstream_succeeds_with (always null_body) loads_fragment JNull.
Proof. concrete_upstream. Defined.

Lemma scalar_outcome_witness :
  exists msg,
    fst (run_tool "token" false (always null_body) loads_fragment show
           (Call_get_project "SM") w0)
    = inl (Raised TypeError msg).
Proof.
  apply (scalar_outcome_raises "token" false (always null_body) loads_fragment
           show (Call_get_project "SM") JNull w0 null_body_succeeds);
    reflexivity.
Defined.

Lemma number_priority_succeeds :
  upstream_succeeds_with (always (ok number_priority_case)) loads_fragment
    (JObj number_priority_case).
Proof. concrete_upstream. Defined.

Lemma number_priority_witness :
  exists msg,
    fst (get_test_cases "token" false (always (ok number_priority_case))
           loads_fragment show "SM" None 25 0 w0)
    = inl (Raised AttributeError msg).
Proof.
  apply (proj2 (listing_returns_iff_projectable "token" false
                  (always (ok number_priority_case)) loads_fragment show
                  "SM" None 25 0 number_priority_case
                  [JObj [("key", JStr "SM-T1"); ("priority", JInt 3)]] w0
                  number_priority_succeeds eq_refl eq_refl)).
  reflexivity.
Defined.

Lemma null_values_succeeds :
  upstream_succeeds_with (always (ok null_values)) loads_fragment
    (JObj null_values).
Proof. concrete_upstream. Defined.

Lemma null_values_witness :
  fst (get_test_cases "token" false (always (ok null_values)) loads_fragment
         show "SM" None 25 0 w0)
  = inr "No test cases found.".
Proof.
  apply (falsy_values_mean_no_test_cases "token" false
           (always (ok null_values)) loads_fragment show "SM" None 25 0
           null_values w0 null_values_succeeds);
    reflexivity.
Defined.

Lemma text_values_succeeds :
  upstream_succeeds_with (always (ok text_values)) loads_fragment
    (JObj text_values).
Proof. concrete_upstream. Defined.

Lemma text_values_witness :
  exists msg,
    fst (get_test_cases "token" false (always (ok text_values)) loads_fragment
           show "SM" None 25 0 w0)
    = inl (Raised AttributeError msg).
Proof.
  apply (non_list_values_raise "token" false (always (ok text_values))
           loads_fragment show "SM" None 25 0 text_values (JStr "none") w0
           text_values_succeeds);
    first [ reflexivity | intros l; discriminate ].
Defined.

Lemma curated_keys_witness :
  exists fields,
    JObj [("id", JNull); ("key", JStr "SM-T1"); ("name", JNull);
          ("priority", JNull); ("status", JNull); ("objective", JNull);
          ("precondition", JNull); ("estimatedTime", JNull);
          ("createdOn", JNull); ("folder", JNull); ("owner", JNull)]
      = JObj fields /\
    map fst fields = curated_keys /\ w0 = w0.
Proof.
  apply (projected_entry_has_curated_keys
           (JObj [("key", JStr "SM-T1"); ("secret", JStr "hidden")]) _ w0 w0).
  reflexivity.
Defined.

Lemma config_witness :
  exists cfg,
    load_config eu_environ = inr cfg /\
    cfg_API_TOKEN cfg = "secret" /\
    cfg_API_BASE cfg = API_BASE (cfg_USE_EU_REGION cfg) /\
    (cfg_USE_EU_REGION cfg = true <->
     exists v, eu_environ "ZEPHYR_USE_EU_REGION" = Some v /\ upper v = "TRUE").
Proof.
  apply (proj1 (config_resolution eu_environ) "secret").
  - reflexivity.
  - discriminate.
Defined.
